(** * IDAES process-modelling framework: build, packaging and notebook glue

    A shallow embedding of the operational scripts of the repository:

    - [Shell] / [Docker]: the [idaes-docker] Bash script (a command
      dispatcher around [docker run], [docker build] and [docker save]);
    - [Make]: GNU make as far as the Makefiles of the repository use it,
      and the Makefile of the [cubic_roots] solver plug-in together with
      the shared [Makefile.in];
    - [Sphinx]: the Makefile of the documentation;
    - [CI]: the CircleCI job of the repository;
    - [Heater]: [make_control_volume] of the Heater notebook.

    Scripts are embedded as functions in a small monad that threads the
    state of the outside world and records what the script does; the
    outside world itself (what [docker], [wget], [python] ... answer) stays
    abstract. *)

From stdpp Require Import base strings list gmap.
From Stdlib Require Import ZArith Ascii.

Local Open Scope Z_scope.

(** ** A model of the Bash fragment used by [idaes-docker] *)

Module Shell.

(** Redirections of a simple command.  The target of [<] and [>] is kept
    as the list of fields its word expands to: Bash refuses the command
    with "ambiguous redirect" unless there is exactly one. *)
Inductive redir :=
| RIn (target : list string)          (* < word *)
| ROut (target : list string)         (* > word *)
| RErrToOut.                          (* 2>&1 *)

(** External commands: a simple command (its argument vector after all
    expansions, and its redirections) or a pipeline [l | r]. *)
Inductive command :=
| Cmd (argv : list string) (rs : list redir)
| Pipe (l r : command).

(** What a run of the script does, in order.  A foreground command is
    launched and waited for ([EStart] directly followed by [EFinish]); a
    command put in the background with [&] is only launched. *)
Inductive event :=
| EPrintf (fmt : string)              (* builtin printf, with its format *)
| ERead                               (* builtin read, one line of stdin *)
| EStart (c : command)
| EFinish (c : command) (status : Z).

(** The outside world: its state [W] and how it answers the script. *)
Record system (W : Type) := System {
  exec : command → W → Z * string * W;  (* exit status, standard output *)
  file_exists : string → W → bool;      (* the test [-e file] *)
  read_line : W → string * W;           (* the value [read] assigns *)
  glob : string → W → list string;      (* pathname expansion of one field *)
  readable : string → W → bool          (* the file can be opened for reading *)
}.
Arguments exec {W}. Arguments file_exists {W}.
Arguments read_line {W}. Arguments glob {W}. Arguments readable {W}.

(** A script either runs to its end or leaves through [exit code]. *)
Inductive outcome (A : Type) :=
| Ret (a : A)
| Exit (code : Z).
Arguments Ret {A}. Arguments Exit {A}.

Definition sh (W A : Type) : Type := W → outcome A * W * list event.

Definition ret {W A} (a : A) : sh W A := λ w, (Ret a, w, []).

Definition bind {W A B} (m : sh W A) (k : A → sh W B) : sh W B := λ w,
  match m w with
  | (Ret a, w1, t1) => let '(o, w2, t2) := k a w1 in (o, w2, t1 ++ t2)
  | (Exit c, w1, t1) => (Exit c, w1, t1)
  end.

#[global] Instance sh_ret {W} : MRet (sh W) := @ret W.
#[global] Instance sh_bind {W} : MBind (sh W) := λ A B k m, bind m k.

Definition exit {W A} (code : Z) : sh W A := λ w, (Exit code, w, []).

Definition printf {W} (fmt : string) : sh W unit := λ w,
  (Ret tt, w, [EPrintf fmt]).

(** [c] in the foreground: the shell waits, [$?] is the exit status. *)
Definition run {W} (S : system W) (c : command) : sh W Z := λ w,
  let '(st, _, w1) := exec S c w in (Ret st, w1, [EStart c; EFinish c st]).

(** [c < file] in the foreground.  Bash opens [file] before it starts
    [c]: when the file cannot be opened, [c] is not started at all and
    [$?] is 1. *)
Definition run_from {W} (S : system W) (file : string) (c : command)
  : sh W Z := λ w,
  if readable S file w then run S c w else (Ret 1, w, []).

(** [c &]: the shell goes on without waiting. *)
Definition spawn {W} (S : system W) (c : command) : sh W unit := λ w,
  let '(_, _, w1) := exec S c w in (Ret tt, w1, [EStart c]).

Definition newline : ascii := "010"%char.

Definition is_ifs (c : ascii) : bool :=
  bool_decide (c = " "%char) || bool_decide (c = "009"%char)
  || bool_decide (c = newline).

(** Command substitution drops every trailing newline of the output. *)
Fixpoint chomp (s : string) : string :=
  match s with
  | EmptyString => EmptyString
  | String c s' =>
      match chomp s' with
      | EmptyString => if bool_decide (c = newline) then EmptyString
                       else String c EmptyString
      | r => String c r
      end
  end.

(** [$( c )]: [c] in the foreground, its output captured. *)
Definition capture {W} (S : system W) (c : command) : sh W string := λ w,
  let '(st, out, w1) := exec S c w in
  (Ret (chomp out), w1, [EStart c; EFinish c st]).

(** [wc -l] prints the number of newline characters of its input. *)
Fixpoint wc_l (s : string) : nat :=
  match s with
  | EmptyString => O
  | String c s' => if bool_decide (c = newline) then S (wc_l s') else wc_l s'
  end.

(** [$( c | wc -l )]: only [c] is left to the outside world. *)
Definition capture_wc_l {W} (S : system W) (c : command) : sh W nat := λ w,
  let p := Pipe c (Cmd ["wc"; "-l"] []) in
  let '(_, out, w1) := exec S c w in
  (Ret (wc_l out), w1, [EStart p; EFinish p 0]).

Definition read {W} (S : system W) : sh W string := λ w,
  let '(line, w1) := read_line S w in (Ret line, w1, [ERead]).

Definition test_e {W} (S : system W) (f : string) : sh W bool := λ w,
  (Ret (file_exists S f w), w, []).

(** Field splitting of an unquoted expansion on blanks, tabs and
    newlines (the default [IFS]). *)
Fixpoint fields_aux (s : string) : string * list string :=
  match s with
  | EmptyString => (EmptyString, [])
  | String c s' =>
      let '(w, ws) := fields_aux s' in
      if is_ifs c
      then (EmptyString, match w with EmptyString => ws | _ => w :: ws end)
      else (String c w, ws)
  end.

Definition fields (s : string) : list string :=
  let '(w, ws) := fields_aux s in
  match w with EmptyString => ws | _ => w :: ws end.

(** The words an unquoted [$x] expands to: field splitting, then
    pathname expansion of every field. *)
Definition words {W} (S : system W) (s : string) (w : W) : list string :=
  flat_map (λ f, glob S f w) (fields s).

Definition expand {W} (S : system W) (s : string) : sh W (list string) :=
  λ w, (Ret (words S s w), w, []).

(** Unquoted [$*]: every positional parameter, each one expanded. *)
Definition expand_all {W} (S : system W) (args : list string)
  : sh W (list string) :=
  λ w, (Ret (flat_map (λ a, words S a w) args), w, []).

(** The trace of a run, and the exit of the script. *)
Definition trace_of {W A} (r : outcome A * W * list event) : list event :=
  r.2.
Definition outcome_of {W A} (r : outcome A * W * list event) : outcome A :=
  r.1.1.
Definition world_of {W A} (r : outcome A * W * list event) : W :=
  r.1.2.

(** A trace is serial when every command launched is waited for before
    anything else happens: no two commands are ever in flight. *)
Inductive serial : list event → Prop :=
| serial_nil : serial []
| serial_printf fmt t : serial t → serial (EPrintf fmt :: t)
| serial_read t : serial t → serial (ERead :: t)
| serial_command c st t : serial t → serial (EStart c :: EFinish c st :: t).

(** A property of traces holds of a script when it holds of every run. *)
Definition holds {W A} (P : list event → Prop) (m : sh W A) : Prop :=
  ∀ w, P (trace_of (m w)).

End Shell.

(** ** The [idaes-docker] script *)

Module Docker.
Import Shell.

Section Script.
Context {W : Type} (S : system W).

(** Every line of [usage] is a [printf]; the function ends in [exit 1]. *)
Definition usage_lines : list string :=
  [ "./idaes-docker COMMAND\n\n";
    "User commands:\n";
    "   help          Print this message\n";
    "   test          Run the unit tests on the Docker image.\n";
    "   notebook      Run a Jupyter notebook inside the Docker image.\n";
    "   update        Get the latest version of the IDAES Docker image.\n";
    "Developer commands:\n";
    "   create         Build new Docker image (creates a .tgz file)\n" ].

Definition usage {A} : sh W A :=
  printf "./idaes-docker COMMAND\n\n" ;;
  printf "User commands:\n" ;;
  printf "   help          Print this message\n" ;;
  printf "   test          Run the unit tests on the Docker image.\n" ;;
  printf "   notebook      Run a Jupyter notebook inside the Docker image.\n" ;;
  printf "   update        Get the latest version of the IDAES Docker image.\n" ;;
  printf "Developer commands:\n" ;;
  printf "   create         Build new Docker image (creates a .tgz file)\n" ;;
  exit 1.

(** Expected repository and tag of the Docker image to use. *)
Definition IMAGE_REPO : string := "idaes".
Definition IMAGE_TAG : string := "idaes_pse".

Definition wget_probe : command :=
  Cmd ["wget"; "-h"] [ROut ["/dev/null"]; RErrToOut].
Definition curl_probe : command :=
  Cmd ["curl"; "-h"] [ROut ["/dev/null"]; RErrToOut].

Definition install_image_url : string :=
  "https://s3.amazonaws.com/idaes/idaes-pse".
Definition install_image_filenm : string := "idaes-pse-docker-latest.tgz".

(** [$getcmd ${url}/${filenm}]: [getcmd] is one of two literals and the
    URL has neither blanks nor pattern characters, so splitting is all
    there is to the expansion. *)
Definition download (getcmd : string) : command :=
  Cmd (fields getcmd
       ++ [install_image_url +:+ "/" +:+ install_image_filenm]) [].

Definition docker_load : command :=
  Cmd ["docker"; "load"] [RIn [install_image_filenm]].

Definition install_image : sh W unit :=
  let url := install_image_url in
  let filenm := install_image_filenm in
  st ← run S wget_probe ;
  getcmd ← (if bool_decide (st = 0) then mret "wget"
            else
              st ← run S curl_probe ;
              if bool_decide (st = 0) then mret ("curl -o " +:+ filenm)
              else
                printf "Could not find 'curl' or 'wget' command. Abort.\n" ;;
                exit 1) ;
  printf "Downloading image..\n" ;;
  st ← run S (download getcmd) ;
  (if bool_decide (st ≠ 0) then
     printf "Download failed. Abort command.\n" ;;
     exit 1
   else mret tt) ;;
  printf "Loading image..\n" ;;
  run_from S filenm docker_load ;;
  mret tt.

Definition install_image_help : sh W unit :=
  printf "Command aborted.\n\nFor information on how to install and use\n" ;;
  printf "Docker with the IDAES PSE framework, see the installation guide at:\n" ;;
  printf "    https://idaes-pse.readthedocs.io/en/latest/install.html\n".

Definition docker_images_q (refs : list string) : command :=
  Cmd (["docker"; "images"; "-q"] ++ refs) [].

(** Check if the image is present; ask to install it, if not. *)
Definition check_image : sh W unit :=
  n ← capture_wc_l S (docker_images_q [IMAGE_REPO +:+ ":" +:+ IMAGE_TAG]) ;
  if bool_decide (n = 0%nat) then
    printf ("Docker image " +:+ IMAGE_REPO +:+ ":" +:+ IMAGE_TAG
            +:+ " not found\n") ;;
    printf "Download and install latest image now (y/N)? " ;;
    response ← read S ;
    if bool_decide (response ∈ ["y"; "Y"; "yes"; "Yes"; "YES"])
    then install_image
    else install_image_help ;; exit 1
  else mret tt.

Definition detect_version : command :=
  Cmd ["python"; "-c";
       "from idaes import ver; print(ver.__version__, end='')"] [].

Definition docker_build (tags : list string) : command :=
  Cmd (["docker"; "build"; "."] ++ tags) [].

Definition docker_save (ids target : list string) : command :=
  Pipe (Cmd (["docker"; "save"] ++ ids) [])
       (Cmd ["gzip"; "-c"] [ROut target]).

(** The [while [[ $# -gt 0 ]]] loop: one [-t] option per remaining
    positional parameter, in order. *)
Definition user_tags (tagopt : string) (args : list string) : string :=
  fold_left
    (λ tagopt a, tagopt +:+ " -t " +:+ IMAGE_REPO +:+ "/" +:+ IMAGE_TAG
                 +:+ ":" +:+ a)
    args tagopt.

Definition build_image (args : list string) : sh W unit :=
  ver ← capture S detect_version ;
  printf ("Detected IDAES package version " +:+ ver +:+ "\n") ;;
  let vertag := IMAGE_REPO +:+ "/" +:+ IMAGE_TAG +:+ ":v" +:+ ver in
  let tagopt := "-t " +:+ vertag in
  let tagopt := user_tags tagopt args in
  let imgname := "idaes-pse-docker-" +:+ ver +:+ ".tgz" in
  present ← test_e S imgname ;
  if negb present then
    refs ← expand S vertag ;
    imgid ← capture S (docker_images_q refs) ;
    imgid ← (if bool_decide (imgid = "") then
               printf "Building image...\n" ;;
               tags ← expand S tagopt ;
               run S (docker_build tags) ;;
               refs ← expand S vertag ;
               capture S (docker_images_q refs)
             else
               printf ("Nothing to do: image " +:+ vertag
                       +:+ " already exists (" +:+ imgid +:+ ")\n") ;;
               mret imgid) ;
    printf "Saving image..\n" ;;
    ids ← expand S imgid ;
    target ← expand S imgname ;
    run S (docker_save ids target) ;;
    printf ("Done: " +:+ imgname +:+ " \n")
  else
    printf ("Nothing to do: image file " +:+ imgname
            +:+ " already exists\n").

Definition docker_run_tests : command :=
  Cmd ["docker"; "run"; "-it"; "idaes/idaes_jupyterhub"; "/bin/bash"; "-c";
       "cd /home/idaes && pytest"] [].

Definition docker_run_notebook : command :=
  Cmd ["docker"; "run"; "-p"; "8888:8888"; "-it"; "idaes/idaes_jupyterhub"] [].

(** The body of the script; [args] are the positional parameters
    [$1], [$2], ...  An unset [$1] expands to the empty string. *)
Definition main (args : list string) : sh W unit :=
  let arg1 := default "" (head args) in
  (if bool_decide (arg1 = "") then usage else mret tt) ;;
  if bool_decide (arg1 = "test") then
    check_image ;;
    printf "Running tests in container...\n" ;;
    run S docker_run_tests ;;
    mret tt
  else if bool_decide (arg1 = "notebook") then
    check_image ;;
    printf "Starting Jupyter...\n" ;;
    run S docker_run_notebook ;;
    mret tt
  else if bool_decide (arg1 = "update") then
    printf "Updating IDAES image...\n" ;;
    install_image
  else if bool_decide (arg1 = "create") then
    printf "Create new Docker image file\n" ;;
    args' ← expand_all S (tail args) ;
    build_image args'
  else if bool_decide (arg1 ∈ ["-h"; "help"]) then
    usage
  else
    usage.

End Script.

(** A run of the script, and how the process ends: the [exit] code, or
    nothing when the script runs off its end. *)
Definition exit_code {W} (r : outcome unit * W * list event) : option Z :=
  match outcome_of r with
  | Exit c => Some c
  | Ret _ => None
  end.

Definition usage_events : list event := EPrintf <$> usage_lines.

(** The commands of the dispatcher that do something else than print the
    usage message. *)
Definition working_commands : list string :=
  ["test"; "notebook"; "update"; "create"].

(** A trace without any line of the usage message. *)
Definition silent (t : list event) : Prop :=
  ∀ line, line ∈ usage_lines → EPrintf line ∉ t.

(** How [build_image] starts: the version of the package is asked for
    and reported. *)
Definition detected (st : Z) (ver : string) : list event :=
  [ EStart detect_version; EFinish detect_version st;
    EPrintf ("Detected IDAES package version " +:+ ver +:+ "\n") ].

End Docker.

(** ** GNU make, and the Makefile of the [cubic_roots] plug-in *)

Module Make.

(** The text of a variable definition or recipe line: literal pieces,
    references [$(NAME)] and calls of make's functions
    [$(function arguments)]. *)
Inductive frag :=
| Lit (s : string)
| Ref (name : string)
| Call (function arguments : string).

Definition text : Type := list frag.

(** Variables defined by the makefiles read so far, newest first. *)
Definition variables : Type := list (string * text).

Fixpoint definition_of (name : string) (vs : variables) : option text :=
  match vs with
  | [] => None
  | (n, d) :: vs' => if String.eqb n name then Some d
                     else definition_of name vs'
  end.

(** *** Where the model stops

    make is followed as long as it works on the rules and variables of
    the makefile alone.  The model gives no answer ([None], or the
    result [Unfollowed] of a run) where make would go on in another way:
    - the environment sets one of make's special variables, such as
      [MAKEFLAGS], which carries options ([-n], [-i], [-B], [-e], ...),
      [MAKEFILES] or [VPATH];
    - a value taken from the environment or from the command line holds
      a [$], which make expands in its turn, or a newline, which ends a
      recipe line;
    - a variable is used to which make itself gives the value (the
      automatic variables, [SHELL], the variables of the built-in rules
      that nobody else defines), or one of make's functions is called;
    - make's built-in rules apply to a file for which the makefile has
      no recipe. *)

(** The variables that change how make reads makefiles, chooses its
    goals, looks for files and runs recipes. *)
Definition special_variables : list string :=
  [ "MAKEFLAGS"; "GNUMAKEFLAGS"; "MFLAGS"; "MAKEOVERRIDES"; "MAKEFILES";
    "MAKELEVEL"; "MAKE_RESTARTS"; "MAKE_COMMAND"; "MAKESHELL";
    "VPATH"; "GPATH";
    ".DEFAULT_GOAL"; ".RECIPEPREFIX"; ".SHELLFLAGS"; ".SHELLSTATUS";
    ".EXTRA_PREREQS"; ".LIBPATTERNS"; ".INCLUDE_DIRS"; ".FEATURES";
    ".VARIABLES"; ".LOADED" ].

(** The variables to which make gives a value of its own, whatever the
    environment says: the special ones, the shell, the directory and the
    lists make keeps, and the automatic variables. *)
Definition own_variables : list string :=
  special_variables
  ++ [ "SHELL"; "CURDIR"; "SUFFIXES"; "MAKEFILE_LIST"; "MAKECMDGOALS";
       "MAKE_TERMOUT"; "MAKE_TERMERR";
       "@"; "%"; "<"; "?"; "^"; "+"; "*"; "|";
       "@D"; "@F"; "%D"; "%F"; "<D"; "<F"; "?D"; "?F"; "^D"; "^F";
       "+D"; "+F"; "*D"; "*F" ].

(** The variables that make defines for its built-in rules, when neither
    the makefile nor the environment does. *)
Definition predefined : list string :=
  [ "MAKE"; "MAKE_VERSION"; "MAKE_HOST"; "MAKEINFO";
    "AR"; "ARFLAGS"; "AS"; "CC"; "CXX"; "CPP"; "FC"; "F77"; "F77FLAGS";
    "PC"; "M2C"; "OBJC"; "LD"; "LEX"; "YACC"; "LINT"; "CO"; "COFLAGS";
    "GET"; "CHECKOUT,v"; "TEX"; "TEXI2DVI"; "WEAVE"; "CWEAVE"; "TANGLE";
    "CTANGLE"; "RM"; "OUTPUT_OPTION";
    "COMPILE.C"; "COMPILE.F"; "COMPILE.S"; "COMPILE.c"; "COMPILE.cc";
    "COMPILE.cpp"; "COMPILE.def"; "COMPILE.f"; "COMPILE.m"; "COMPILE.mod";
    "COMPILE.p"; "COMPILE.r"; "COMPILE.s";
    "LINK.C"; "LINK.F"; "LINK.S"; "LINK.c"; "LINK.cc"; "LINK.cpp";
    "LINK.f"; "LINK.m"; "LINK.o"; "LINK.p"; "LINK.r"; "LINK.s";
    "PREPROCESS.F"; "PREPROCESS.S"; "PREPROCESS.r";
    "LEX.l"; "LEX.m"; "LINT.c"; "YACC.m"; "YACC.y" ].

Definition is_own (name : string) : bool :=
  existsb (String.eqb name) own_variables.

Definition is_predefined (name : string) : bool :=
  existsb (String.eqb name) predefined.

(** A value that make takes as it is: no [$] and no newline. *)
Fixpoint literal (s : string) : bool :=
  match s with
  | EmptyString => true
  | String c s' =>
      negb (Ascii.eqb c "$") && negb (Ascii.eqb c "010") && literal s'
  end.

(** An environment that sets none of the special variables. *)
Definition plain (env : string → option string) : bool :=
  forallb (λ name, match env name with
                   | None => true
                   | Some _ => false
                   end) special_variables.

Section Expansion.
(** The environment [make] is started in: the value of each variable, if
    it is set at all. *)
Variable env : string → option string.

(** Expansion of recursively expanded variables.  A definition of the
    makefile takes precedence over the environment, and a variable that
    is defined nowhere expands to nothing.  [fuel] bounds the depth of
    nested references. *)
Fixpoint expand_fuel (fuel : nat) (vs : variables) (t : text)
  : option string :=
  match fuel with
  | O => None
  | S fuel' =>
      foldr (λ f acc,
               s ← match f with
                    | Lit s => Some s
                    | Call _ _ => None
                    | Ref name =>
                        match definition_of name vs with
                        | Some d => expand_fuel fuel' vs d
                        | None =>
                            if is_own name then None
                            else match env name with
                                 | Some v =>
                                     if literal v then Some v else None
                                 | None =>
                                     if is_predefined name then None
                                     else Some ""
                                 end
                        end
                    end ;
               r ← acc ;
               Some (s +:+ r))
            (Some "") t
  end.

(** Nested references are at most as deep as there are variables. *)
Definition expand (vs : variables) (t : text) : option string :=
  expand_fuel (S (length vs)) vs t.

(** [Makefile.in], included first. *)
Definition Makefile_in : variables :=
  [ ("CP", [Lit "cp"]);
    ("RM", [Lit "rm"]);
    ("CXX", [Lit "g++"]);
    ("CC", [Lit "gcc"]);
    ("BOOST", [Ref "BOOST_HEADER"]);
    ("ASL", [Ref "ASL_BUILD"]) ].

(** The variables of the Makefile.  [ifeq ($(ASL),)] is decided while the
    Makefile is read, with the definitions of [Makefile.in] in force. *)
Definition read_variables : option variables :=
  if plain env then
    asl ← expand Makefile_in [Ref "ASL"] ;
    let CFLAGS :=
      if String.eqb asl "" then [Lit "-Wall -Wextra -O3"]
      else [Lit "-Wall -Wextra -O3 -I"; Ref "ASL"] in
    Some (("LDFLAGS", [Lit "-shared -lm"]) :: ("CFLAGS", CFLAGS)
          :: Makefile_in)
  else None.

End Expansion.

Record rule := Rule {
  target : string;
  prereqs : list string;
  recipe : list text
}.

(** The rules, in the order of the Makefile. *)
Definition rules : list rule :=
  [ Rule "ALL" ["cubic_roots.so"] [];
    Rule "cubic_roots.o" ["cubic_roots.c"]
      [ [Ref "CC"; Lit " -c "; Ref "CFLAGS";
         Lit " -fPIC cubic_roots.c -o cubic_roots.o"] ];
    Rule "cubic_roots.so" ["cubic_roots.o"]
      [ [Ref "CC"; Lit " "; Ref "LDFLAGS";
         Lit " cubic_roots.o -o cubic_roots.so"] ];
    Rule "clean" [] [ [Lit "rm -f *.o"]; [Lit "rm -f *.so"] ] ].

(** The Makefile declares no target phony. *)
Definition phony : list string := [].

(** The makefiles that make reads: the Makefile and the file it
    includes. *)
Definition makefiles : list string := ["Makefile"; "../../../Makefile.in"].

Fixpoint rule_for (t : string) (rs : list rule) : option rule :=
  match rs with
  | [] => None
  | r :: rs' => if String.eqb (target r) t then Some r else rule_for t rs'
  end.

(** Without a goal on the command line, [make] updates the target of the
    first rule. *)
Definition default_goal (rs : list rule) : option string :=
  target <$> head rs.

(** The file system, the shell that runs the recipe lines, and make's
    built-in rules. *)
Record system (W : Type) := System {
  mtime : string → W → option nat;      (* [None]: no such file *)
  shell : string → W → bool * W;        (* [true]: exit status 0 *)
  builtin : string → W → bool           (* a built-in rule applies to the
                                           file, from the files there are *)
}.
Arguments mtime {W}. Arguments shell {W}. Arguments builtin {W}.

Inductive error :=
| NoRule (t : string)                   (* No rule to make target *)
| Failed (t : string)                   (* recipe for target failed *)
| Unfollowed.                           (* the model does not follow make *)

(** What [make] did: the result, the world it leaves and the commands it
    passed to the shell, in order. *)
Record run (W : Type) := Run {
  result : option error;
  world : W;
  log : list string
}.
Arguments Run {W}. Arguments result {W}. Arguments world {W}.
Arguments log {W}.

Definition is_blank (c : ascii) : bool :=
  Ascii.eqb c " " || Ascii.eqb c "009".

(** What make does with a recipe line once it is expanded: the blanks
    and the characters [@], [+] and [-] at its start are taken off, and
    [-] lets make go on when the command fails. *)
Fixpoint strip (line : string) : bool * string :=
  match line with
  | EmptyString => (false, EmptyString)
  | String c rest =>
      if is_blank c || Ascii.eqb c "@" || Ascii.eqb c "+" then strip rest
      else if Ascii.eqb c "-" then (true, (strip rest).2)
      else (false, line)
  end.

(** The commands of a recipe: a line of which nothing is left is not
    run. *)
Definition commands (lines : list string) : list (bool * string) :=
  omap (λ l, let c := strip l in
             if String.eqb c.2 "" then None else Some c) lines.

Definition is_phony (ph : list string) (t : string) : bool :=
  existsb (String.eqb t) ph.

Section Update.
Context {W : Type} (sys : system W).
Variable env : string → option string.
Variable vs : variables.
Variable rs : list rule.
Variable ph : list string.

(** The commands of target [t], one after the other, until one fails
    that is not allowed to. *)
Fixpoint run_commands (t : string) (cs : list (bool * string)) (w : W)
  : run W :=
  match cs with
  | [] => Run None w []
  | (ignore, cmd) :: cs' =>
      let '(ok, w1) := shell sys cmd w in
      if ok || ignore then
        let r := run_commands t cs' w1 in
        Run (result r) (world r) (cmd :: log r)
      else Run (Some (Failed t)) w1 [cmd]
  end.

(** The recipe of [t]: every line is expanded, then the commands are
    run. *)
Definition run_recipe (t : string) (lines : list text) (w : W) : run W :=
  match mapM (expand env vs) lines with
  | None => Run (Some Unfollowed) w []
  | Some ls => run_commands t (commands ls) w
  end.

(** A target is out of date when it is phony or does not exist, or when
    one of its prerequisites is phony, does not exist or is newer. *)
Definition out_of_date (t : string) (this : option nat)
    (deps : list string) (w : W) : bool :=
  is_phony ph t
  || match this with
     | None => true
     | Some t0 =>
         existsb (λ d, is_phony ph d
                       || match mtime sys d w with
                          | None => true
                          | Some td => bool_decide (t0 < td)%nat
                          end) deps
     end.

(** Bring [t] up to date, unless this run of [make] has done so already
    ([seen] lists the targets it has been through): note its time stamp,
    bring its prerequisites up to date from left to right, then run its
    recipe if it is out of date.  A file without a rule has to exist.
    Where the makefile has no recipe for a file, make turns to its
    built-in rules.  [fuel] bounds the length of dependency chains. *)
Fixpoint update (fuel : nat) (t : string) (seen : list string) (w : W)
  : run W * list string :=
  match fuel with
  | O => (Run (Some Unfollowed) w [], seen)
  | S fuel' =>
      if existsb (String.eqb t) seen then (Run None w [], seen)
      else
        match rule_for t rs with
        | None =>
            if builtin sys t w then (Run (Some Unfollowed) w [], seen)
            else
              match mtime sys t w with
              | Some _ => (Run None w [], t :: seen)
              | None => (Run (Some (NoRule t)) w [], seen)
              end
        | Some r =>
            if negb (is_phony ph t)
               && match recipe r with [] => true | _ => false end
               && builtin sys t w
            then (Run (Some Unfollowed) w [], seen)
            else
              let this := mtime sys t w in
              let deps :=
                foldl (λ acc d,
                         match result acc.1 with
                         | Some _ => acc
                         | None =>
                             let rd := update fuel' d acc.2 (world acc.1) in
                             (Run (result rd.1) (world rd.1)
                                  (log acc.1 ++ log rd.1), rd.2)
                         end)
                      (Run None w [], seen) (prereqs r) in
              match result deps.1 with
              | Some _ => deps
              | None =>
                  if out_of_date t this (prereqs r) (world deps.1) then
                    let rr := run_recipe t (recipe r) (world deps.1) in
                    (Run (result rr) (world rr) (log deps.1 ++ log rr),
                     t :: deps.2)
                  else (deps.1, t :: deps.2)
              end
        end
  end.

(** Before anything else make brings the makefiles [mks] themselves up
    to date, for which it has its built-in rules only; then comes the
    goal. *)
Definition run_goal (mks : list string) (goal : string) (w : W) : run W :=
  if existsb (λ m, builtin sys m w) mks then Run (Some Unfollowed) w []
  else (update (S (length rs)) goal [] w).1.

End Update.

(** A word of the command line that make takes for a goal and not for an
    option, a variable or a special target: letters, digits, [_], [.]
    and [-], the first of them a letter or a digit. *)
Definition is_alnum (c : ascii) : bool :=
  let n := nat_of_ascii c in
  ((48 <=? n) && (n <=? 57) || (65 <=? n) && (n <=? 90)
   || (97 <=? n) && (n <=? 122))%nat.

Fixpoint name_chars (s : string) : bool :=
  match s with
  | EmptyString => true
  | String c s' =>
      (is_alnum c || Ascii.eqb c "_" || Ascii.eqb c "." || Ascii.eqb c "-")
      && name_chars s'
  end.

Definition is_goal (g : string) : bool :=
  match g with
  | EmptyString => false
  | String c _ => is_alnum c && name_chars g
  end.

(** [make] without arguments. *)
Definition make {W} (sys : system W) (env : string → option string) (w : W)
  : run W :=
  match read_variables env, default_goal rules with
  | Some vs, Some goal => run_goal sys env vs rules phony makefiles goal w
  | _, _ => Run (Some Unfollowed) w []
  end.

(** One command given to the shell for target [t]. *)
Definition run1 {W} (sys : system W) (cmd t : string) (w : W) : run W :=
  let '(ok, w1) := shell sys cmd w in
  Run (if ok then None else Some (Failed t)) w1 [cmd].

(** A file is older than a time stamp; a file that does not exist is
    older than everything. *)
Definition older (file : option nat) (than : nat) : Prop :=
  match file with
  | None => True
  | Some t => (t < than)%nat
  end.

(** A file has to be made again because of a prerequisite: the file does
    not exist, or the prerequisite does not exist or is newer. *)
Definition behind (file prerequisite : option nat) : Prop :=
  match prerequisite with
  | None => True
  | Some t => older file t
  end.

(** The variables once both makefiles are read. *)
Definition vars (env : string → option string) : variables :=
  ("LDFLAGS", [Lit "-shared -lm"])
  :: ("CFLAGS",
      if String.eqb (default "" (env "ASL_BUILD")) ""
      then [Lit "-Wall -Wextra -O3"]
      else [Lit "-Wall -Wextra -O3 -I"; Ref "ASL"])
  :: Makefile_in.

(** The two commands of the build, as [make] passes them to the shell. *)
Definition include_option (env : string → option string) : string :=
  match env "ASL_BUILD" with
  | None | Some "" => ""
  | Some asl => " -I" +:+ asl
  end.

Definition compile_command (env : string → option string) : string :=
  "gcc -c -Wall -Wextra -O3" +:+ include_option env
  +:+ " -fPIC cubic_roots.c -o cubic_roots.o".

Definition link_command : string :=
  "gcc -shared -lm cubic_roots.o -o cubic_roots.so".

(** The recipe of a target as the shell gets it. *)
Definition recipe_lines (env : string → option string) (t : string)
  : option (list string) :=
  vs ← read_variables env ;
  r ← rule_for t rules ;
  ls ← mapM (expand env vs) (recipe r) ;
  Some ((commands ls).*2).

(** The header search path of the compilation: the directories given to
    the compiler with [-I]. *)
Definition header_search_path (env : string → option string)
  : list string :=
  match recipe_lines env "cubic_roots.o" with
  | Some [cmd] =>
      omap (λ w, match w with
                 | String "-" (String "I" dir) => Some dir
                 | _ => None
                 end) (Shell.fields cmd)
  | _ => []
  end.

(** The value of [$(CFLAGS)] in the recipes. *)
Definition CFLAGS (env : string → option string) : option string :=
  vs ← read_variables env ; expand env vs [Ref "CFLAGS"].

(** The value of a variable of [Makefile.in]. *)
Definition value_of (env : string → option string) (name : string)
  : option string :=
  vs ← read_variables env ; expand env vs [Ref name].

(** The two steps of the build.  The compilation is run when
    [cubic_roots.o] is out of date.  If it does not fail, the link is run
    when [cubic_roots.so], as it was when [make] started, is out of date
    with respect to the [cubic_roots.o] there is now. *)
Definition compiled {W} (sys : system W) (env : string → option string)
    (w : W) : run W :=
  if out_of_date sys phony "cubic_roots.o" (mtime sys "cubic_roots.o" w)
       ["cubic_roots.c"] w
  then run1 sys (compile_command env) "cubic_roots.o" w
  else Run None w [].

Definition linked {W} (sys : system W) (r1 : run W) (w : W) : run W :=
  match result r1 with
  | Some _ => r1
  | None =>
      if out_of_date sys phony "cubic_roots.so"
           (mtime sys "cubic_roots.so" w) ["cubic_roots.o"] (world r1)
      then let r2 := run1 sys link_command "cubic_roots.so" (world r1) in
           Run (result r2) (world r2) (log r1 ++ log r2)
      else r1
  end.

(** The environment leaves make to itself and gives [ASL_BUILD], if at
    all, a value that make takes as it is. *)
Definition settled (env : string → option string) : bool :=
  plain env && literal (default "" (env "ASL_BUILD")).

(** No built-in rule comes into play for the files [ts]. *)
Definition explicit {W} (sys : system W) (ts : list string) (w : W) : bool :=
  forallb (λ t, negb (builtin sys t w)) ts.

End Make.

(** ** The CircleCI job *)

Module CI.

(** When a step runs: by default only while every earlier step of the job
    has succeeded. *)
Inductive condition := on_success | on_fail | always.

Inductive step :=
| checkout
| run_when (cond : condition) (command : string).

(** The character that opens and closes a quoted YAML or shell word. *)
Definition dquote : string := String "034"%char EmptyString.

(** The short form [- run: command]. *)
Definition run (command : string) : step := run_when on_success command.

(** [shared.steps], the steps of the job ["python-3.7"]. *)
Definition steps : list step :=
  [ checkout;
    run "./install-solvers.sh";
    run "sudo pip install pip==18.0.0";
    run "sudo pip install -qr requirements.txt";
    run "pyomo --version";
    run "sudo python setup.py -q install";
    run "cd docs && make html";
    run ("pytest docs idaes -m " +:+ dquote +:+ "not nocircleci" +:+ dquote);
    run "coverage report";
    run "coveralls" ].

Definition condition_of (s : step) : condition :=
  match s with
  | checkout => on_success
  | run_when c _ => c
  end.

Definition enabled (c : condition) (failed : bool) : bool :=
  match c with
  | on_success => negb failed
  | on_fail => failed
  | always => true
  end.

(** The executor: each step is a process with an exit status. *)
Definition executor (W : Type) : Type := step → W → Z * W.

(** The steps are taken in order; a step that is not enabled is skipped.
    The result lists the steps that ran, each with its exit status. *)
Fixpoint run_steps {W} (exec : executor W) (failed : bool) (ss : list step)
    (w : W) : list (step * Z) :=
  match ss with
  | [] => []
  | s :: ss' =>
      if enabled (condition_of s) failed then
        let '(st, w1) := exec s w in
        (s, st) :: run_steps exec (failed || negb (bool_decide (st = 0))) ss' w1
      else run_steps exec failed ss' w
  end.

Definition run_job {W} (exec : executor W) (w : W) : list (step * Z) :=
  run_steps exec false steps w.

End CI.

(** ** The Heater notebook: [make_control_volume] *)

Module Heater.

Abbreviation loc := nat (only parsing).

(** Python values as far as the function looks at them.  [False] is the
    one value [VBool false]; [x is not False] compares identities, so
    [0] and [None] are not [False]. *)
Inductive value :=
| VNone
| VBool (b : bool)
| VInt (z : Z)
| VStr (s : string)
| VRef (l : loc).

#[global] Instance value_eq_dec : EqDecision value.
Proof. solve_decision. Defined.

Definition is_not_False (v : value) : bool :=
  negb (bool_decide (v = VBool false)).

(** An object is its attribute dictionary; the heap holds the objects. *)
Abbreviation object := (gmap string value) (only parsing).
Abbreviation heap := (gmap loc object) (only parsing).

Inductive exn :=
| ValueError (msg : string).

Inductive result (A : Type) :=
| Ok (a : A)
| Raise (e : exn).
Arguments Ok {A}. Arguments Raise {A}.

(** Python code: it changes the heap and returns or raises. *)
Definition py (A : Type) : Type := heap → result A * heap.

Definition py_ret {A} (a : A) : py A := λ h, (Ok a, h).
Definition py_bind {A B} (m : py A) (k : A → py B) : py B := λ h,
  match m h with
  | (Ok a, h1) => k a h1
  | (Raise e, h1) => (Raise e, h1)
  end.
#[global] Instance py_mret : MRet py := @py_ret.
#[global] Instance py_mbind : MBind py := λ A B k m, py_bind m k.

Definition raise {A} (e : exn) : py A := λ h, (Raise e, h).

(** A new object at an address that is not in use. *)
Definition new (o : object) : py loc := λ h,
  let l := fresh (dom h) in (Ok l, <[l := o]> h).

(** [setattr(obj, name, v)] *)
Definition setattr (l : loc) (name : string) (v : value) : py unit := λ h,
  (Ok tt, alter (<[name := v]>) l h).

(** A method that changes the object it is called on. *)
Definition call (l : loc) (method : object → object) : py unit := λ h,
  (Ok tt, alter method l h).

(** The fields of the configuration block the function reads. *)
Record config := Config {
  dynamic : value;
  has_holdup : value;
  property_package : value;
  property_package_args : value;
  has_phase_equilibrium : value;
  material_balance_type : value
}.

(** The modelling framework is not part of the notebook: the class
    [ControlVolume0DBlock] and its methods are parameters, taken to return
    and to change nothing but the control volume they are called on. *)
Record framework := Framework {
  ControlVolume0DBlock : value → value → object;
  add_state_blocks : value → object → object;
  add_material_balances : value → value → object → object;
  add_total_enthalpy_balances : bool → bool → bool → object → object;
  add_total_pressure_balances : bool → object → object
}.

Definition make_control_volume (F : framework) (unit : loc) (name : string)
    (config : config) : py () :=
  (if is_not_False (dynamic config) then
     raise (ValueError "IdealGasIsentropcCompressor does not support dynamics")
   else mret tt) ;;
  (if is_not_False (has_holdup config) then
     raise (ValueError "IdealGasIsentropcCompressor does not support holdup")
   else mret tt) ;;
  control_volume ←
    new (ControlVolume0DBlock F (property_package config)
                                (property_package_args config)) ;
  setattr unit name (VRef control_volume) ;;
  call control_volume
    (add_state_blocks F (has_phase_equilibrium config)) ;;
  call control_volume
    (add_material_balances F (material_balance_type config)
                             (has_phase_equilibrium config)) ;;
  call control_volume (add_total_enthalpy_balances F false true false) ;;
  call control_volume (add_total_pressure_balances F false).

(** The control volume once the function is through with it. *)
Definition built_control_volume (F : framework) (config : config) : object :=
  add_total_pressure_balances F false
    (add_total_enthalpy_balances F false true false
       (add_material_balances F (material_balance_type config)
                                (has_phase_equilibrium config)
          (add_state_blocks F (has_phase_equilibrium config)
             (ControlVolume0DBlock F (property_package config)
                                     (property_package_args config))))).

End Heater.

(** ** Small simulated worlds, to run the models on concrete inputs *)

Module Sim.

(** A machine for [idaes-docker]: the world counts the commands run.
    [wget] is installed when [has_wget]; the download exits with status
    [dl]; the package version is 1.2.0; the image archive exists when
    [archive]; [docker images -q] prints [listing]; every file can be
    read. *)
Definition docker_machine (has_wget : bool) (dl : Z) (archive : bool)
    (listing : string) : Shell.system nat :=
  Shell.System nat
    (λ c w,
       match c with
       | Shell.Cmd ("wget" :: "-h" :: _) _ =>
           (if has_wget then 0 else 127, EmptyString, S w)
       | Shell.Cmd ("curl" :: "-h" :: _) _ => (0, EmptyString, S w)
       | Shell.Cmd ("wget" :: _) _ => (dl, EmptyString, S w)
       | Shell.Cmd ("curl" :: _) _ => (dl, EmptyString, S w)
       | Shell.Cmd ("python" :: _) _ => (0, "1.2.0", S w)
       | Shell.Cmd ("docker" :: "images" :: _) _ => (0, listing, S w)
       | _ => (0, EmptyString, S w)
       end)
    (λ _ _, archive)
    (λ w, ("y", w))
    (λ f _, [f])
    (λ _ _, true).

Definition failing_download : Shell.system nat :=
  docker_machine true 1 false "".
Definition archive_present : Shell.system nat :=
  docker_machine true 0 true "".
Definition image_present : Shell.system nat :=
  docker_machine true 0 false "4f2a9c01d3".

(** A file system with a clock for [make]: a command line with
    [-o file] writes [file]; every command succeeds; there is no file
    to which a built-in rule of make applies. *)
Record disk := Disk {
  files : gmap string nat;
  now : nat
}.

Fixpoint output_of (words : list string) : option string :=
  match words with
  | "-o" :: f :: _ => Some f
  | _ :: ws => output_of ws
  | [] => None
  end.

Definition toolchain : Make.system disk :=
  Make.System disk
    (λ f d, files d !! f)
    (λ cmd d,
       match output_of (Shell.fields cmd) with
       | Some f => (true, Disk (<[f := now d]> (files d)) (S (now d)))
       | None => (true, d)
       end)
    (λ _ _, false).

(** An environment with [ASL_BUILD] and [BOOST_HEADER] set. *)
Definition build_env (name : string) : option string :=
  if bool_decide (name = "ASL_BUILD") then Some "/opt/asl"
  else if bool_decide (name = "BOOST_HEADER") then Some "/opt/boost"
  else None.

Definition without_boost (name : string) : option string :=
  if String.eqb name "BOOST_HEADER" then None else build_env name.

(** A fresh checkout, and a tree in which everything is built. *)
Definition source_only : disk := Disk {[ "cubic_roots.c" := 1%nat ]} 2.
Definition all_built : disk :=
  Disk (<[ "cubic_roots.so" := 3%nat ]>
          (<[ "cubic_roots.o" := 2%nat ]> {[ "cubic_roots.c" := 1%nat ]})) 4.

(** An executor for the CI job in which the documentation build fails. *)
Definition docs_fail : CI.executor unit := λ s w,
  match s with
  | CI.run_when _ "cd docs && make html" => (2, w)
  | _ => (0, w)
  end.

Definition all_pass : CI.executor unit := λ _ w, (0, w).

(** A stand-in for the modelling framework: every call leaves a mark on
    the control volume. *)
Definition framework : Heater.framework :=
  Heater.Framework
    (λ pp args, {[ "property_package" := pp; "property_package_args" := args ]})
    (λ eq, <["state_blocks" := eq]>)
    (λ ty eq, <["material_balances" := ty]>)
    (λ _ heat _, <["enthalpy_balances" := Heater.VBool heat]>)
    (λ dp, <["pressure_balances" := Heater.VBool dp]>).

Definition steady_config : Heater.config :=
  Heater.Config (Heater.VBool false) (Heater.VBool false)
                (Heater.VStr "methanol") Heater.VNone
                (Heater.VBool false) (Heater.VStr "componentPhase").

Definition one_unit : Heater.heap := {[ 0%nat := ∅ ]}.

End Sim.

(** ** What a trace shows *)

Module ShellTraces.
Import Shell.

(** The commands a trace launches, in order. *)
Definition launched (t : list event) : list command :=
  omap (λ e, match e with EStart c => Some c | _ => None end) t.

(** Every command launched is one of [A]. *)
Definition launches_only (A : command → Prop) (t : list event) : Prop :=
  ∀ c, c ∈ launched t → A c.

(** A script that leaves, if at all, through [exit 1]. *)
Definition exits_only_1 {W A} (m : sh W A) : Prop :=
  ∀ w, match outcome_of (m w) with Exit c => c = 1 | Ret _ => True end.

(** A string without blanks, tabs and newlines. *)
Fixpoint ifs_free (s : string) : bool :=
  match s with
  | EmptyString => true
  | String c s' => negb (is_ifs c) && ifs_free s'
  end.

(** A word: not empty, and without blanks, tabs and newlines. *)
Definition is_word (s : string) : bool :=
  match s with
  | EmptyString => false
  | _ => ifs_free s
  end.

End ShellTraces.

(** ** The ways through [idaes-docker] *)

Module DockerPaths.
Import Shell Docker.

(** [docker images -q ${IMAGE_REPO}:${IMAGE_TAG} | wc -l] of
    [check_image]. *)
Definition image_query : command :=
  docker_images_q [IMAGE_REPO +:+ ":" +:+ IMAGE_TAG].
Definition image_query_pipe : command :=
  Pipe image_query (Cmd ["wc"; "-l"] []).

(** What [check_image] does up to the answer of the user, when the image
    is missing. *)
Definition asked : list event :=
  [ EStart image_query_pipe; EFinish image_query_pipe 0;
    EPrintf "Docker image idaes:idaes_pse not found\n";
    EPrintf "Download and install latest image now (y/N)? ";
    ERead ].

(** The output of [install_image_help]. *)
Definition help_shown : list event :=
  [ EPrintf "Command aborted.\n\nFor information on how to install and use\n";
    EPrintf "Docker with the IDAES PSE framework, see the installation guide at:\n";
    EPrintf "    https://idaes-pse.readthedocs.io/en/latest/install.html\n" ].

(** The answers that [check_image] takes for a yes. *)
Definition yes_answers : list string := ["y"; "Y"; "yes"; "Yes"; "YES"].

(** The branches [test] and [notebook] of the dispatcher: the image is
    checked, a message is printed, the container is run. *)
Definition with_image {W} (S : system W) (msg : string) (c : command)
  : sh W unit :=
  check_image S ;; printf msg ;; run S c ;; mret tt.

Definition container_commands : list (string * (string * command)) :=
  [ ("test", ("Running tests in container...\n", docker_run_tests));
    ("notebook", ("Starting Jupyter...\n", docker_run_notebook)) ].

(** The commands of [install_image]. *)
Definition install_commands : list command :=
  [ wget_probe; curl_probe; download "wget";
    download "curl -o idaes-pse-docker-latest.tgz"; docker_load ].

(** The commands of the user side of the script. *)
Definition user_commands : list command :=
  image_query_pipe :: install_commands
  ++ [docker_run_tests; docker_run_notebook].

(** The commands of [build_image]. *)
Inductive build_command : command → Prop :=
| build_detect : build_command detect_version
| build_query refs : build_command (docker_images_q refs)
| build_build tags : build_command (docker_build tags)
| build_save ids target : build_command (docker_save ids target).

End DockerPaths.

(** ** [make] with a goal *)

Module MakeGoals.
Import Make.

(** [make goal] *)
Definition make_goal {W} (sys : system W) (env : string → option string)
    (goal : string) (w : W) : run W :=
  match read_variables env with
  | Some vs =>
      if is_goal goal
      then run_goal sys env vs rules phony makefiles goal w
      else Run (Some Unfollowed) w []
  | None => Run (Some Unfollowed) w []
  end.

End MakeGoals.

(** ** More simulated worlds *)

Module Lab.

(** A bench for [idaes-docker]: the exit status of every tool, whether
    the image archive exists, what [docker images -q] prints after a
    given number of commands, and what the user answers.  The world
    counts the commands run; the package version is 1.2.0; the downloaded
    archive can be opened when [can_read]. *)
Record bench := Bench {
  wget_st : Z;
  curl_st : Z;
  download_st : Z;
  load_st : Z;
  build_st : Z;
  has_archive : bool;
  listing : nat → string;
  answer : string
}.

Definition machine_reading (can_read : bool) (b : bench)
  : Shell.system nat :=
  Shell.System nat
    (λ c w,
       match c with
       | Shell.Cmd ("wget" :: "-h" :: _) _ => (wget_st b, EmptyString, S w)
       | Shell.Cmd ("curl" :: "-h" :: _) _ => (curl_st b, EmptyString, S w)
       | Shell.Cmd ("wget" :: _) _ => (download_st b, EmptyString, S w)
       | Shell.Cmd ("curl" :: _) _ => (download_st b, EmptyString, S w)
       | Shell.Cmd ("python" :: _) _ => (0, "1.2.0", S w)
       | Shell.Cmd ("docker" :: "images" :: _) _ => (0, listing b w, S w)
       | Shell.Cmd ("docker" :: "load" :: _) _ => (load_st b, EmptyString, S w)
       | Shell.Cmd ("docker" :: "build" :: _) _ =>
           (build_st b, EmptyString, S w)
       | _ => (0, EmptyString, S w)
       end)
    (λ _ _, has_archive b)
    (λ w, (answer b, w))
    (λ f _, [f])
    (λ _ _, can_read).

Definition machine : bench → Shell.system nat := machine_reading true.

Definition one_image : string :=
  "4f2a9c01d3" +:+ String Shell.newline EmptyString.

(** Neither [wget] nor [curl]. *)
Definition no_tools : Shell.system nat :=
  machine (Bench 127 127 0 0 0 false (λ _, "") "y").
(** Only [curl]. *)
Definition curl_only : Shell.system nat :=
  machine (Bench 127 0 0 0 0 false (λ _, "") "y").
(** [docker load] fails. *)
Definition load_fails : Shell.system nat :=
  machine (Bench 0 0 0 1 0 false (λ _, "") "y").
(** The download succeeds, but leaves nothing that can be opened. *)
Definition nothing_to_load : Shell.system nat :=
  machine_reading false (Bench 0 0 0 0 0 false (λ _, "") "y").
(** The image is installed. *)
Definition installed : Shell.system nat :=
  machine (Bench 0 0 0 0 0 false (λ _, one_image) "y").
(** The image is missing and the user says no. *)
Definition says_no : Shell.system nat :=
  machine (Bench 0 0 0 0 0 false (λ _, "") "n").
(** No archive, no image; [docker build] fails, so that no image is
    listed afterwards either. *)
Definition build_fails : Shell.system nat :=
  machine (Bench 0 0 0 0 1 false (λ _, "") "y").

(** A compiler that fails on everything. *)
Definition broken_toolchain : Make.system Sim.disk :=
  Make.System Sim.disk (λ f d, Sim.files d !! f) (λ _ d, (false, d))
    (λ _ _, false).

(** A compiler that runs without error and writes nothing. *)
Definition idle_toolchain : Make.system Sim.disk :=
  Make.System Sim.disk (λ f d, Sim.files d !! f) (λ _ d, (true, d))
    (λ _ _, false).

(** A tree in which everything was built before [cubic_roots.c] was
    edited. *)
Definition edited : Sim.disk :=
  Sim.Disk (<[ "cubic_roots.c" := 5%nat ]> (Sim.files Sim.all_built)) 6.

(** The environment of [Sim.build_env] with another compiler in [CC]. *)
Definition cc_clang (name : string) : option string :=
  if String.eqb name "CC" then Some "clang" else Sim.build_env name.

(** A checkout without the C file, and one with a file called clean. *)
Definition no_source : Sim.disk := Sim.Disk ∅ 1.
Definition with_clean_file : Sim.disk :=
  Sim.Disk (<[ "clean" := 7%nat ]> (Sim.files Sim.all_built)) 8.

(** An environment that sets variables of the same names as those of the
    Makefile of the documentation. *)
Definition docs_env (name : string) : option string :=
  if String.eqb name "SPHINXOPTS" then Some "-q"
  else if String.eqb name "BUILDDIR" then Some "/tmp/out"
  else if String.eqb name "SPHINXBUILD" then Some "false"
  else None.

End Lab.

(** ** The Makefile of the documentation *)

Module Sphinx.
Import Make.

Definition dq : string := String "034"%char EmptyString.
Definition tab : string := String "009"%char EmptyString.
Definition nl : string := String "010"%char EmptyString.
Definition bs : string := String "092"%char EmptyString.

(** The variables of the Makefile, newest first. *)
Definition doc_variables : variables :=
  [
    ("I18NSPHINXOPTS", [Ref "SPHINXOPTS"; Lit " ."]);
    ("SPHINX_I", [Ref "SPHINXAPIDOC_I"; Lit " -o "; Ref "SPHINXAPIDOCOUT_I";
        Lit " "; Ref "SPHINXAPIDOCFLAGS"; Lit " "; Ref "SPHINXAPIDOCSRC";
        Lit " "; Ref "SPHINXAPIDOCEXCL"; Lit " "]);
    ("SPHINX_X", [Ref "SPHINXAPIDOC_X"; Lit " -o "; Ref "SPHINXAPIDOCOUT_X";
        Lit " "; Ref "SPHINXAPIDOCFLAGS"; Lit " "; Ref "SPHINXAPIDOCSRC";
        Lit " "; Ref "SPHINXAPIDOCEXCL"; Lit " "]);
    ("SPHINXAPIDOCEXCL", [Lit ("../idaes/tests " +:+ dq +:+ "../idaes/*/tests"
        +:+ dq)]);
    ("SPHINXAPIDOCSRC", [Lit "../idaes"]);
    ("SPHINXAPIDOCFLAGS", [Lit "-fM "]);
    ("SPHINXAPIDOCOUT", [Lit "apidoc"]);
    ("SPHINXAPIDOCOUT_I", [Lit "apidoc_i"]);
    ("SPHINXAPIDOC_I", [Lit ("SPHINX_APIDOC_OPTIONS=" +:+ dq
        +:+ "members,ignore-module-all" +:+ dq +:+ "  sphinx-apidoc")]);
    ("SPHINXAPIDOCOUT_X", [Lit "apidoc_x"]);
    ("SPHINXAPIDOC_X", [Lit ("SPHINX_APIDOC_OPTIONS=" +:+ dq
        +:+ "members,ignore-module-all,noindex" +:+ dq +:+ "  sphinx-apidoc")]);
    ("ALLSPHINXOPTS", [Lit "-d "; Ref "BUILDDIR"; Lit "/doctrees ";
        Ref "SPHINXOPTS"; Lit " ."]);
    ("SPHINXDOCTEST", [Ref "SPHINXBUILD"; Lit " -b "; Ref "SPHINXDOCBUILDER";
        Lit " ."]);
    ("SPHINXDOCDIR", [Lit "doctest"]);
    ("SPHINXDOCBUILDER", [Lit "doctest"]);
    ("SCRIPTDIR", [Lit "scripts"]);
    ("BUILDDIR", [Lit "./build"]);
    ("SPHINXBUILD", [Lit "sphinx-build"]);
    ("SPHINXOPTS", [Lit "-w sphinx-errors.txt -T"]) ].

(** The rules, in the order of the Makefile; every recipe line as it is
    written, with the [@] it may start with. *)
Definition doc_rules : list rule :=
  [
    Rule "help" []
      [
        [Lit ("@echo " +:+ dq +:+ "Please use " +:+ bs
            +:+ "`make <target>' where <target> is one of" +:+ dq)];
        [Lit ("@echo " +:+ dq +:+ "  html       to make standalone HTML files"
            +:+ dq)];
        [Lit ("@echo " +:+ dq
            +:+ "  dirhtml    to make HTML files named index.html in directories"
            +:+ dq)];
        [Lit ("@echo " +:+ dq
            +:+ "  singlehtml to make a single large HTML file" +:+ dq)];
        [Lit ("@echo " +:+ dq
            +:+ "  dep        to make all generated dependencies" +:+ dq)];
        [Lit ("@echo " +:+ dq +:+ "  apidoc     to make HTML API docs" +:+ dq)];
        [Lit ("@echo " +:+ dq +:+ "  pickle     to make pickle files" +:+ dq)];
        [Lit ("@echo " +:+ dq +:+ "  json       to make JSON files" +:+ dq)];
        [Lit ("@echo " +:+ dq
            +:+ "  htmlhelp   to make HTML files and a HTML help project"
            +:+ dq)];
        [Lit ("@echo " +:+ dq
            +:+ "  qthelp     to make HTML files and a qthelp project" +:+ dq)];
        [Lit ("@echo " +:+ dq +:+ "  applehelp  to make an Apple Help Book"
            +:+ dq)];
        [Lit ("@echo " +:+ dq
            +:+ "  devhelp    to make HTML files and a Devhelp project"
            +:+ dq)];
        [Lit ("@echo " +:+ dq +:+ "  epub       to make an epub" +:+ dq)];
        [Lit ("@echo " +:+ dq +:+ "  epub3      to make an epub3" +:+ dq)];
        [Lit ("@echo " +:+ dq
            +:+ "  latex      to make LaTeX files, you can set PAPER=a4 or PAPER=letter"
            +:+ dq)];
        [Lit ("@echo " +:+ dq
            +:+ "  latexpdf   to make LaTeX files and run them through pdflatex"
            +:+ dq)];
        [Lit ("@echo " +:+ dq
            +:+ "  latexpdfja to make LaTeX files and run them through platex/dvipdfmx"
            +:+ dq)];
        [Lit ("@echo " +:+ dq +:+ "  text       to make text files" +:+ dq)];
        [Lit ("@echo " +:+ dq +:+ "  man        to make manual pages" +:+ dq)];
        [Lit ("@echo " +:+ dq +:+ "  texinfo    to make Texinfo files" +:+ dq)];
        [Lit ("@echo " +:+ dq
            +:+ "  info       to make Texinfo files and run them through makeinfo"
            +:+ dq)];
        [Lit ("@echo " +:+ dq +:+ "  gettext    to make PO message catalogs"
            +:+ dq)];
        [Lit ("@echo " +:+ dq
            +:+ "  changes    to make an overview of all changed/added/deprecated items"
            +:+ dq)];
        [Lit ("@echo " +:+ dq
            +:+ "  xml        to make Docutils-native XML files" +:+ dq)];
        [Lit ("@echo " +:+ dq
            +:+ "  pseudoxml  to make pseudoxml-XML files for display purposes"
            +:+ dq)];
        [Lit ("@echo " +:+ dq
            +:+ "  linkcheck  to check all external links for integrity"
            +:+ dq)];
        [Lit ("@echo " +:+ dq
            +:+ "  doctest    to run all doctests embedded in the documentation (if enabled)"
            +:+ dq)];
        [Lit ("@echo " +:+ dq
            +:+ "  coverage   to run coverage check of the documentation (if enabled)"
            +:+ dq)];
        [Lit ("@echo " +:+ dq
            +:+ "  dummy      to check syntax errors of document sources"
            +:+ dq)];
        [Lit ("@echo " +:+ dq
            +:+ "  examples   to run and copy the example notebooks into html format"
            +:+ dq)] ];
    Rule "clean" []
      [
        [Lit "rm -f apidoc/*"];
        [Lit "rm -f sphinx-build.log"] ];
    Rule "allclean" ["clean"]
      [
        [Lit "rm -rf "; Ref "BUILDDIR"; Lit "/*"] ];
    Rule "idaes" ["dep"; "examples"; "html"]
      [
        [Lit ("@echo " +:+ dq +:+ "Rebuilding IDAES documentation" +:+ dq)] ];
    Rule "apidoc" []
      [
        [Lit ("@ echo " +:+ dq +:+ "Build apidocs (twice)" +:+ dq)];
        [Ref "SPHINX_I"; Lit " >/dev/null"];
        [Ref "SPHINX_X"; Lit " >/dev/null"];
        [Lit ("@ echo " +:+ dq +:+ "Combine indexed and non-indexed docs"
            +:+ dq)];
        [Lit "@ mkdir -p apidoc"];
        [Lit "@ /bin/cp "; Ref "SPHINXAPIDOCOUT_X"; Lit "/* apidoc"];
        [Lit ("@for ix in idaes idaes.dmf idaes.vis ; do " +:+ tab +:+ bs +:+ nl
            +:+ tab +:+ "/bin/cp "); Ref "SPHINXAPIDOCOUT_I";
            Lit ("/${ix}.rst apidoc;" +:+ tab +:+ tab +:+ bs +:+ nl
            +:+ "done")];
        [Lit "@ /bin/rm -rf "; Ref "SPHINXAPIDOCOUT_I"; Lit " ";
            Ref "SPHINXAPIDOCOUT_X"];
        [Lit ("@ echo " +:+ dq +:+ "Done: output in directory 'apidoc'"
            +:+ dq)] ];
    Rule "dep" ["apidoc"]
      [
        [Lit ("@echo " +:+ dq +:+ "Done building all dependencies" +:+ dq)] ];
    Rule "html" ["apidoc"]
      [
        [Lit "mkdir -p "; Ref "BUILDDIR"; Lit "/examples"];
        [Lit "SPHINX=1 "; Ref "SPHINXBUILD"; Lit " -b html ";
            Ref "ALLSPHINXOPTS"; Lit " "; Ref "BUILDDIR"];
        [Lit "@/bin/cp examples/*.html "; Ref "BUILDDIR"; Lit "/examples"];
        [Lit "@/bin/cp examples/*.png "; Ref "BUILDDIR"; Lit "/examples"];
        [Lit "@echo"];
        [Lit ("@echo " +:+ dq +:+ "Build finished. The HTML pages are in ");
            Ref "BUILDDIR"; Lit dq] ];
    Rule "examples" ["execute"; "nbconvert"; "nbimages"]
      [
        [Lit ("@echo " +:+ dq
            +:+ "Examples copied as HTML. The pages are located in ");
            Ref "BUILDDIR"; Lit ("/examples" +:+ dq)] ];
    Rule "nbconvert" []
      [
        [Lit "mkdir -p "; Ref "BUILDDIR"; Lit "/examples"];
        [Ref "SCRIPTDIR"; Lit "/convert_notebooks.sh ../examples/executed ";
            Ref "BUILDDIR"; Lit "/examples"] ];
    Rule "nbimages" []
      [
        [Call "shell" ("find ../examples -name " +:+ dq +:+ "*.png" +:+ dq
            +:+ " -exec cp {} $(BUILDDIR)/examples " +:+ bs +:+ ";")] ];
    Rule "execute" []
      [
        [Lit ("jupyter nbconvert --to notebook --execute " +:+ bs +:+ nl);
            Call "shell" ("find ../examples -name " +:+ bs
            +:+ "*.ipynb | grep -v -e executed -e checkpoint"); Lit (" " +:+ bs
            +:+ nl +:+ "--output-dir ../examples/executed")] ];
    Rule "dirhtml" []
      [
        [Lit "mkdir -p "; Ref "BUILDDIR"; Lit "/dirhtml"];
        [Ref "SPHINXBUILD"; Lit " -b dirhtml "; Ref "ALLSPHINXOPTS"; Lit " ";
            Ref "BUILDDIR"; Lit "/dirhtml"];
        [Lit "@echo"];
        [Lit ("@echo " +:+ dq +:+ "Build finished. The HTML pages are in ");
            Ref "BUILDDIR"; Lit ("/dirhtml." +:+ dq)] ];
    Rule "singlehtml" []
      [
        [Lit "mkdir -p "; Ref "BUILDDIR"; Lit "/singlehtml"];
        [Ref "SPHINXBUILD"; Lit " -b singlehtml "; Ref "ALLSPHINXOPTS"; Lit " ";
            Ref "BUILDDIR"; Lit "/singlehtml"];
        [Lit "@echo"];
        [Lit ("@echo " +:+ dq +:+ "Build finished. The HTML page is in ");
            Ref "BUILDDIR"; Lit ("/singlehtml." +:+ dq)] ];
    Rule "pickle" []
      [
        [Lit "mkdir -p "; Ref "BUILDDIR"; Lit "/pickle"];
        [Ref "SPHINXBUILD"; Lit " -b pickle "; Ref "ALLSPHINXOPTS"; Lit " ";
            Ref "BUILDDIR"; Lit "/pickle"];
        [Lit "@echo"];
        [Lit ("@echo " +:+ dq
            +:+ "Build finished; now you can process the pickle files."
            +:+ dq)] ];
    Rule "json" []
      [
        [Lit "mkdir -p "; Ref "BUILDDIR"; Lit "/json"];
        [Ref "SPHINXBUILD"; Lit " -b json "; Ref "ALLSPHINXOPTS"; Lit " ";
            Ref "BUILDDIR"; Lit "/json"];
        [Lit "@echo"];
        [Lit ("@echo " +:+ dq
            +:+ "Build finished; now you can process the JSON files."
            +:+ dq)] ];
    Rule "htmlhelp" []
      [
        [Lit "mkdir -p "; Ref "BUILDDIR"; Lit "/htmlhelp"];
        [Ref "SPHINXBUILD"; Lit " -b htmlhelp "; Ref "ALLSPHINXOPTS"; Lit " ";
            Ref "BUILDDIR"; Lit "/htmlhelp"];
        [Lit "@echo"];
        [Lit ("@echo " +:+ dq
            +:+ "Build finished; now you can run HTML Help Workshop with the"
            +:+ dq +:+ " " +:+ bs +:+ nl +:+ "      " +:+ dq
            +:+ ".hhp project file in "); Ref "BUILDDIR"; Lit ("/htmlhelp."
            +:+ dq)] ];
    Rule "qthelp" []
      [
        [Lit "mkdir -p "; Ref "BUILDDIR"; Lit "/qthelp"];
        [Ref "SPHINXBUILD"; Lit " -b qthelp "; Ref "ALLSPHINXOPTS"; Lit " ";
            Ref "BUILDDIR"; Lit "/qthelp"];
        [Lit "@echo"];
        [Lit ("@echo " +:+ dq +:+ "Build finished; now you can run " +:+ dq
            +:+ "qcollectiongenerator" +:+ dq +:+ " with the" +:+ dq +:+ " "
            +:+ bs +:+ nl +:+ "      " +:+ dq +:+ ".qhcp project file in ");
            Ref "BUILDDIR"; Lit ("/qthelp, like this:" +:+ dq)];
        [Lit ("@echo " +:+ dq +:+ "# qcollectiongenerator "); Ref "BUILDDIR";
            Lit ("/qthelp/DMF.qhcp" +:+ dq)];
        [Lit ("@echo " +:+ dq +:+ "To view the help file:" +:+ dq)];
        [Lit ("@echo " +:+ dq +:+ "# assistant -collectionFile ");
            Ref "BUILDDIR"; Lit ("/qthelp/DMF.qhc" +:+ dq)] ];
    Rule "applehelp" []
      [
        [Lit "mkdir -p "; Ref "BUILDDIR"; Lit "/applehelp"];
        [Ref "SPHINXBUILD"; Lit " -b applehelp "; Ref "ALLSPHINXOPTS"; Lit " ";
            Ref "BUILDDIR"; Lit "/applehelp"];
        [Lit "@echo"];
        [Lit ("@echo " +:+ dq +:+ "Build finished. The help book is in ");
            Ref "BUILDDIR"; Lit ("/applehelp." +:+ dq)];
        [Lit ("@echo " +:+ dq
            +:+ "N.B. You won't be able to view it unless you put it in" +:+ dq
            +:+ " " +:+ bs +:+ nl +:+ "      " +:+ dq
            +:+ "~/Library/Documentation/Help or install it in your application"
            +:+ dq +:+ " " +:+ bs +:+ nl +:+ "      " +:+ dq +:+ "bundle."
            +:+ dq)] ];
    Rule "devhelp" []
      [
        [Lit "mkdir -p "; Ref "BUILDDIR"; Lit "/devhelp"];
        [Ref "SPHINXBUILD"; Lit " -b devhelp "; Ref "ALLSPHINXOPTS"; Lit " ";
            Ref "BUILDDIR"; Lit "/devhelp"];
        [Lit "@echo"];
        [Lit ("@echo " +:+ dq +:+ "Build finished." +:+ dq)];
        [Lit ("@echo " +:+ dq +:+ "To view the help file:" +:+ dq)];
        [Lit ("@echo " +:+ dq +:+ "# mkdir -p $HOME/.local/share/devhelp/DMF"
            +:+ dq)];
        [Lit ("@echo " +:+ dq +:+ "# ln -s "); Ref "BUILDDIR";
            Lit ("/devhelp $HOME/.local/share/devhelp/DMF" +:+ dq)];
        [Lit ("@echo " +:+ dq +:+ "# devhelp" +:+ dq)] ];
    Rule "epub" []
      [
        [Lit "mkdir -p "; Ref "BUILDDIR"; Lit "/epub"];
        [Ref "SPHINXBUILD"; Lit " -b epub "; Ref "ALLSPHINXOPTS"; Lit " ";
            Ref "BUILDDIR"; Lit "/epub"];
        [Lit "@echo"];
        [Lit ("@echo " +:+ dq +:+ "Build finished. The epub file is in ");
            Ref "BUILDDIR"; Lit ("/epub." +:+ dq)] ];
    Rule "epub3" []
      [
        [Lit "mkdir -p "; Ref "BUILDDIR"; Lit "/epub3"];
        [Ref "SPHINXBUILD"; Lit " -b epub3 "; Ref "ALLSPHINXOPTS"; Lit " ";
            Ref "BUILDDIR"; Lit "/epub3"];
        [Lit "@echo"];
        [Lit ("@echo " +:+ dq +:+ "Build finished. The epub3 file is in ");
            Ref "BUILDDIR"; Lit ("/epub3." +:+ dq)] ];
    Rule "latex" []
      [
        [Lit "mkdir -p "; Ref "BUILDDIR"; Lit "/latex"];
        [Ref "SPHINXBUILD"; Lit " -b latex "; Ref "ALLSPHINXOPTS"; Lit " ";
            Ref "BUILDDIR"; Lit "/latex"];
        [Lit "@echo"];
        [Lit ("@echo " +:+ dq +:+ "Build finished; the LaTeX files are in ");
            Ref "BUILDDIR"; Lit ("/latex." +:+ dq)];
        [Lit ("@echo " +:+ dq +:+ "Run " +:+ bs
            +:+ "`make' in that directory to run these through (pdf)latex"
            +:+ dq +:+ " " +:+ bs +:+ nl +:+ "      " +:+ dq +:+ "(use " +:+ bs
            +:+ "`make latexpdf' here to do that automatically)." +:+ dq)] ];
    Rule "latexpdf" []
      [
        [Lit "mkdir -p "; Ref "BUILDDIR"; Lit "/latex"];
        [Ref "SPHINXBUILD"; Lit " -b latex "; Ref "ALLSPHINXOPTS"; Lit " ";
            Ref "BUILDDIR"; Lit "/latex"];
        [Lit ("@echo " +:+ dq +:+ "Running LaTeX files through pdflatex..."
            +:+ dq)];
        [Ref "MAKE"; Lit " -C "; Ref "BUILDDIR"; Lit "/latex all-pdf"];
        [Lit ("@echo " +:+ dq +:+ "pdflatex finished; the PDF files are in ");
            Ref "BUILDDIR"; Lit ("/latex." +:+ dq)] ];
    Rule "latexpdfja" []
      [
        [Lit "mkdir -p "; Ref "BUILDDIR"; Lit "/latex"];
        [Ref "SPHINXBUILD"; Lit " -b latex "; Ref "ALLSPHINXOPTS"; Lit " ";
            Ref "BUILDDIR"; Lit "/latex"];
        [Lit ("@echo " +:+ dq
            +:+ "Running LaTeX files through platex and dvipdfmx..." +:+ dq)];
        [Ref "MAKE"; Lit " -C "; Ref "BUILDDIR"; Lit "/latex all-pdf-ja"];
        [Lit ("@echo " +:+ dq +:+ "pdflatex finished; the PDF files are in ");
            Ref "BUILDDIR"; Lit ("/latex." +:+ dq)] ];
    Rule "text" []
      [
        [Lit "mkdir -p "; Ref "BUILDDIR"; Lit "/text"];
        [Ref "SPHINXBUILD"; Lit " -b text "; Ref "ALLSPHINXOPTS"; Lit " ";
            Ref "BUILDDIR"; Lit "/text"];
        [Lit "@echo"];
        [Lit ("@echo " +:+ dq +:+ "Build finished. The text files are in ");
            Ref "BUILDDIR"; Lit ("/text." +:+ dq)] ];
    Rule "man" []
      [
        [Lit "mkdir -p "; Ref "BUILDDIR"; Lit "/man"];
        [Ref "SPHINXBUILD"; Lit " -b man "; Ref "ALLSPHINXOPTS"; Lit " ";
            Ref "BUILDDIR"; Lit "/man"];
        [Lit "@echo"];
        [Lit ("@echo " +:+ dq +:+ "Build finished. The manual pages are in ");
            Ref "BUILDDIR"; Lit ("/man." +:+ dq)] ];
    Rule "texinfo" []
      [
        [Lit "mkdir -p "; Ref "BUILDDIR"; Lit "/texinfo"];
        [Ref "SPHINXBUILD"; Lit " -b texinfo "; Ref "ALLSPHINXOPTS"; Lit " ";
            Ref "BUILDDIR"; Lit "/texinfo"];
        [Lit "@echo"];
        [Lit ("@echo " +:+ dq +:+ "Build finished. The Texinfo files are in ");
            Ref "BUILDDIR"; Lit ("/texinfo." +:+ dq)];
        [Lit ("@echo " +:+ dq +:+ "Run " +:+ bs
            +:+ "`make' in that directory to run these through makeinfo" +:+ dq
            +:+ " " +:+ bs +:+ nl +:+ "      " +:+ dq +:+ "(use " +:+ bs
            +:+ "`make info' here to do that automatically)." +:+ dq)] ];
    Rule "info" []
      [
        [Lit "mkdir -p "; Ref "BUILDDIR"; Lit "/texinfo"];
        [Ref "SPHINXBUILD"; Lit " -b texinfo "; Ref "ALLSPHINXOPTS"; Lit " ";
            Ref "BUILDDIR"; Lit "/texinfo"];
        [Lit ("@echo " +:+ dq +:+ "Running Texinfo files through makeinfo..."
            +:+ dq)];
        [Lit "make -C "; Ref "BUILDDIR"; Lit "/texinfo info"];
        [Lit ("@echo " +:+ dq +:+ "makeinfo finished; the Info files are in ");
            Ref "BUILDDIR"; Lit ("/texinfo." +:+ dq)] ];
    Rule "gettext" []
      [
        [Lit "mkdir -p "; Ref "BUILDDIR"; Lit "/locale"];
        [Ref "SPHINXBUILD"; Lit " -b gettext "; Ref "I18NSPHINXOPTS"; Lit " ";
            Ref "BUILDDIR"; Lit "/locale"];
        [Lit "@echo"];
        [Lit ("@echo " +:+ dq
            +:+ "Build finished. The message catalogs are in "); Ref "BUILDDIR";
            Lit ("/locale." +:+ dq)] ];
    Rule "changes" []
      [
        [Lit "mkdir -p "; Ref "BUILDDIR"; Lit "/changes"];
        [Ref "SPHINXBUILD"; Lit " -b changes "; Ref "ALLSPHINXOPTS"; Lit " ";
            Ref "BUILDDIR"; Lit "/changes"];
        [Lit "@echo"];
        [Lit ("@echo " +:+ dq +:+ "The overview file is in "); Ref "BUILDDIR";
            Lit ("/changes." +:+ dq)] ];
    Rule "linkcheck" []
      [
        [Lit "mkdir -p "; Ref "BUILDDIR"; Lit "/linkcheck"];
        [Ref "SPHINXBUILD"; Lit " -b linkcheck "; Ref "ALLSPHINXOPTS"; Lit " ";
            Ref "BUILDDIR"; Lit "/linkcheck"];
        [Lit "@echo"];
        [Lit ("@echo " +:+ dq
            +:+ "Link check complete; look for any errors in the above output "
            +:+ dq +:+ " " +:+ bs +:+ nl +:+ "      " +:+ dq +:+ "or in ");
            Ref "BUILDDIR"; Lit ("/linkcheck/output.txt." +:+ dq)] ];
    Rule "doctest" []
      [
        [Lit "mkdir -p "; Ref "BUILDDIR"; Lit "/"; Ref "SPHINXDOCDIR"];
        [Ref "SPHINXDOCTEST"; Lit " "; Ref "BUILDDIR"; Lit "/";
            Ref "SPHINXDOCDIR"];
        [Lit ("@echo " +:+ dq
            +:+ "Testing of doctests in the sources finished, look at the "
            +:+ dq +:+ " " +:+ bs +:+ nl +:+ "      " +:+ dq +:+ "results in ");
            Ref "BUILDDIR"; Lit ("/doctest/output.txt." +:+ dq)] ];
    Rule "coverage" []
      [
        [Lit "mkdir -p "; Ref "BUILDDIR"; Lit "/coverage"];
        [Ref "SPHINXBUILD"; Lit " -b coverage "; Ref "ALLSPHINXOPTS"; Lit " ";
            Ref "BUILDDIR"; Lit "/coverage"];
        [Lit ("@echo " +:+ dq
            +:+ "Testing of coverage in the sources finished, look at the "
            +:+ dq +:+ " " +:+ bs +:+ nl +:+ "      " +:+ dq +:+ "results in ");
            Ref "BUILDDIR"; Lit ("/coverage/python.txt." +:+ dq)] ];
    Rule "xml" []
      [
        [Lit "mkdir -p "; Ref "BUILDDIR"; Lit "/xml"];
        [Ref "SPHINXBUILD"; Lit " -b xml "; Ref "ALLSPHINXOPTS"; Lit " ";
            Ref "BUILDDIR"; Lit "/xml"];
        [Lit "@echo"];
        [Lit ("@echo " +:+ dq +:+ "Build finished. The XML files are in ");
            Ref "BUILDDIR"; Lit ("/xml." +:+ dq)] ];
    Rule "pseudoxml" []
      [
        [Lit "mkdir -p "; Ref "BUILDDIR"; Lit "/pseudoxml"];
        [Ref "SPHINXBUILD"; Lit " -b pseudoxml "; Ref "ALLSPHINXOPTS"; Lit " ";
            Ref "BUILDDIR"; Lit "/pseudoxml"];
        [Lit "@echo"];
        [Lit ("@echo " +:+ dq
            +:+ "Build finished. The pseudo-XML files are in "); Ref "BUILDDIR";
            Lit ("/pseudoxml." +:+ dq)] ];
    Rule "dummy" []
      [
        [Lit "mkdir -p "; Ref "BUILDDIR"; Lit "/dummy"];
        [Ref "SPHINXBUILD"; Lit " -b dummy "; Ref "ALLSPHINXOPTS"; Lit " ";
            Ref "BUILDDIR"; Lit "/dummy"];
        [Lit "@echo"];
        [Lit ("@echo " +:+ dq
            +:+ "Build finished. Dummy builder generates no files."
            +:+ dq)] ] ].

(** The targets declared [.PHONY]. *)
Definition doc_phony : list string :=
  ["help"; "clean"; "allclean"; "apidoc"; "dep"; "html"; "examples";
      "nbconvert"; "nbimages"; "execute"; "dirhtml"; "singlehtml"; "pickle";
      "json"; "htmlhelp"; "qthelp"; "applehelp"; "devhelp"; "epub"; "epub3";
      "latex"; "latexpdf"; "latexpdfja"; "text"; "man"; "texinfo"; "info";
      "gettext"; "changes"; "linkcheck"; "doctest"; "coverage"; "xml";
      "pseudoxml"; "dummy"].

(** make reads the Makefile alone. *)
Definition doc_makefiles : list string := ["Makefile"].

(** The name of a variable given on the command line: letters, digits
    and [_]. *)
Fixpoint word_chars (s : string) : bool :=
  match s with
  | EmptyString => true
  | String c s' => (is_alnum c || Ascii.eqb c "_") && word_chars s'
  end.

Definition is_name (n : string) : bool :=
  match n with
  | EmptyString => false
  | _ => word_chars n
  end.

(** A value on the command line that make takes as it is: make expands
    it, and drops the blanks it starts with. *)
Definition as_given (v : string) : bool :=
  literal v
  && match v with
     | EmptyString => true
     | String c _ => negb (is_blank c)
     end.

(** [NAME=value] on the command line, as far as the model follows it:
    not one of make's own variables, and a value taken as it is. *)
Definition override_ok (o : string * string) : bool :=
  is_name o.1 && negb (is_own o.1) && as_given o.2.

(** The variables in force in the recipes.  Those given on the command
    line ([make BUILDDIR=...], the last one first) take precedence over
    the definitions of the Makefile. *)
Definition overridden (overrides : list (string * string)) : variables :=
  map (λ o, (o.1, [Lit o.2])) overrides ++ doc_variables.

Definition table (env : string → option string)
    (overrides : list (string * string)) : option variables :=
  if plain env && forallb override_ok overrides
  then Some (overridden overrides)
  else None.

(** [make overrides... goal]; without a goal, the target of the first
    rule. *)
Definition make_docs {W} (sys : system W) (env : string → option string)
    (overrides : list (string * string)) (goal : option string) (w : W)
  : run W :=
  match table env overrides with
  | None => Run (Some Unfollowed) w []
  | Some vs =>
      match (match goal with
             | Some g => if is_goal g then Some g else None
             | None => default_goal doc_rules
             end) with
      | Some g => run_goal sys env vs doc_rules doc_phony doc_makefiles g w
      | None => Run (Some Unfollowed) w []
      end
  end.

(** The recipe of a target as make runs it: every command with the mark
    that lets it fail. *)
Definition recipe_of (env : string → option string)
    (overrides : list (string * string)) (t : string)
  : option (list (bool * string)) :=
  vs ← table env overrides ;
  r ← rule_for t doc_rules ;
  ls ← mapM (expand env vs) (recipe r) ;
  Some (commands ls).

(** The commands as the shell gets them. *)
Definition commands_of (env : string → option string)
    (overrides : list (string * string)) (t : string)
  : option (list string) :=
  (λ cs, cs.*2) <$> recipe_of env overrides t.

(** Commands none of which may fail. *)
Definition strict (cmds : list string) : list (bool * string) :=
  (λ c, (false, c)) <$> cmds.

(** [make BUILDDIR=b SPHINXOPTS=o] *)
Definition settings (b o : string) : list (string * string) :=
  [("BUILDDIR", b); ("SPHINXOPTS", o)].

(** The targets that run one Sphinx builder into a directory of its
    own: target, builder, directory. *)
Definition builders : list (string * (string * string)) :=
  [ ("dirhtml", ("dirhtml", "dirhtml"));
    ("singlehtml", ("singlehtml", "singlehtml"));
    ("pickle", ("pickle", "pickle"));
    ("json", ("json", "json"));
    ("htmlhelp", ("htmlhelp", "htmlhelp"));
    ("qthelp", ("qthelp", "qthelp"));
    ("applehelp", ("applehelp", "applehelp"));
    ("devhelp", ("devhelp", "devhelp"));
    ("epub", ("epub", "epub"));
    ("epub3", ("epub3", "epub3"));
    ("latex", ("latex", "latex"));
    ("text", ("text", "text"));
    ("man", ("man", "man"));
    ("texinfo", ("texinfo", "texinfo"));
    ("info", ("texinfo", "texinfo"));
    ("changes", ("changes", "changes"));
    ("linkcheck", ("linkcheck", "linkcheck"));
    ("coverage", ("coverage", "coverage"));
    ("xml", ("xml", "xml"));
    ("pseudoxml", ("pseudoxml", "pseudoxml"));
    ("dummy", ("dummy", "dummy")) ].

(** The commands of [clean] and, for the build directory [b], the one of
    [allclean]. *)
Definition clean_commands : list string :=
  ["rm -f apidoc/*"; "rm -f sphinx-build.log"].
Definition allclean_command (b : string) : string :=
  "rm -rf " +:+ b +:+ "/*".

(** The commands of [apidoc]. *)
Definition apidoc_commands : list string :=
  [ "echo " +:+ dq +:+ "Build apidocs (twice)" +:+ dq;
    "SPHINX_APIDOC_OPTIONS=" +:+ dq +:+ "members,ignore-module-all" +:+ dq
      +:+ "  sphinx-apidoc -o apidoc_i -fM  ../idaes ../idaes/tests "
      +:+ dq +:+ "../idaes/*/tests" +:+ dq +:+ "  >/dev/null";
    "SPHINX_APIDOC_OPTIONS=" +:+ dq +:+ "members,ignore-module-all,noindex"
      +:+ dq
      +:+ "  sphinx-apidoc -o apidoc_x -fM  ../idaes ../idaes/tests "
      +:+ dq +:+ "../idaes/*/tests" +:+ dq +:+ "  >/dev/null";
    "echo " +:+ dq +:+ "Combine indexed and non-indexed docs" +:+ dq;
    "mkdir -p apidoc";
    "/bin/cp apidoc_x/* apidoc";
    "for ix in idaes idaes.dmf idaes.vis ; do " +:+ tab +:+ bs +:+ nl
      +:+ tab +:+ "/bin/cp apidoc_i/${ix}.rst apidoc;" +:+ tab +:+ tab
      +:+ bs +:+ nl +:+ "done";
    "/bin/rm -rf apidoc_i apidoc_x";
    "echo " +:+ dq +:+ "Done: output in directory 'apidoc'" +:+ dq ].

(** The command of [html] that runs Sphinx, and all its commands, for
    the build directory [b] and the options [o]. *)
Definition sphinx_html (b o : string) : string :=
  "SPHINX=1 sphinx-build -b html -d " +:+ b +:+ "/doctrees " +:+ o
  +:+ " . " +:+ b.

Definition html_commands (b o : string) : list string :=
  [ "mkdir -p " +:+ b +:+ "/examples";
    sphinx_html b o;
    "/bin/cp examples/*.html " +:+ b +:+ "/examples";
    "/bin/cp examples/*.png " +:+ b +:+ "/examples";
    "echo";
    "echo " +:+ dq +:+ "Build finished. The HTML pages are in " +:+ b
      +:+ dq ].

(** The commands of [doctest], for the build directory [b]. *)
Definition doctest_commands (b : string) : list string :=
  [ "mkdir -p " +:+ b +:+ "/doctest";
    "sphinx-build -b doctest . " +:+ b +:+ "/doctest";
    "echo " +:+ dq
      +:+ "Testing of doctests in the sources finished, look at the "
      +:+ dq +:+ " " +:+ bs +:+ nl +:+ "      " +:+ dq
      +:+ "results in " +:+ b +:+ "/doctest/output.txt." +:+ dq ].

(** Every variable a text refers to is defined in [vs], but for [MAKE]. *)
Definition refs_defined (vs : variables) (t : text) : bool :=
  forallb (λ f, match f with
                | Lit _ | Call _ _ => true
                | Ref n => String.eqb n "MAKE"
                           || match definition_of n vs with
                              | Some _ => true
                              | None => false
                              end
                end) t.

(** Every definition refers to defined variables only. *)
Definition closed (vs : variables) : bool :=
  forallb (λ nd, refs_defined vs nd.2) vs.

End Sphinx.

(** * Properties *)

(** ** Traces of shell scripts *)

Module ShellFacts.
Import Shell.

Lemma serial_app (a b : list event) : serial a → serial b → serial (a ++ b).
Proof. induction 1; intros Hb; simpl; auto using serial. Qed.

Example fields_of_tag_options :
  fields " -t idaes/idaes_pse:v1  -t  idaes/idaes_pse:latest "
  = ["-t"; "idaes/idaes_pse:v1"; "-t"; "idaes/idaes_pse:latest"].
Proof. reflexivity. Qed.

Example chomp_version :
  chomp ("1.2.0" +:+ String newline (String newline EmptyString)) = "1.2.0".
Proof. reflexivity. Qed.

Example wc_l_two_images :
  wc_l ("4f2a9c01d3" +:+ String newline ("77be01aa10" +:+ String newline ""))
  = 2%nat.
Proof. reflexivity. Qed.

(** A command left in the background breaks seriality. *)
Lemma background_not_serial {W} (S : system W) (c : command) (w : W) :
  ¬ serial (trace_of ((spawn S c ;; printf "done\n") w)).
Proof.
  unfold mbind, sh_bind, bind, spawn, printf, trace_of.
  destruct (exec S c w) as [[st out] w1]. simpl. inversion 1.
Qed.

(** Properties of traces that hold of the empty trace and are kept by
    concatenation can be checked command by command. *)
Section TraceInvariant.
Context {W : Type} (P : list event → Prop).
Hypothesis P_nil : P [].
Hypothesis P_app : ∀ a b, P a → P b → P (a ++ b).

Lemma holds_ret {A} (a : A) : holds P (mret a : sh W A).
Proof. intros w. exact P_nil. Qed.

Lemma holds_exit {A} (c : Z) : holds P (@exit W A c).
Proof. intros w. exact P_nil. Qed.

Lemma holds_bind {A B} (m : sh W A) (k : A → sh W B) :
  holds P m → (∀ a, holds P (k a)) → holds P (m ≫= k).
Proof.
  intros Hm Hk w. unfold mbind, sh_bind, bind.
  specialize (Hm w). destruct (m w) as [[[a|c] w1] t1]; [|exact Hm].
  specialize (Hk a w1). destruct (k a w1) as [[o w2] t2].
  apply P_app; assumption.
Qed.

Lemma holds_test_e (S : system W) f : holds P (test_e S f).
Proof. intros w. exact P_nil. Qed.

Lemma holds_expand (S : system W) s : holds P (expand S s).
Proof. intros w. exact P_nil. Qed.

Lemma holds_expand_all (S : system W) l : holds P (expand_all S l).
Proof. intros w. exact P_nil. Qed.

Lemma holds_printf fmt : P [EPrintf fmt] → holds P (printf fmt : sh W unit).
Proof. intros H w. exact H. Qed.

Hypothesis P_command : ∀ c st, P [EStart c; EFinish c st].
Hypothesis P_read : P [ERead].

Lemma holds_run (S : system W) c : holds P (run S c).
Proof.
  intros w. unfold run.
  destruct (exec S c w) as [[st out] w1]. apply P_command.
Qed.

Lemma holds_run_from (S : system W) f c : holds P (run_from S f c).
Proof.
  intros w. unfold run_from. destruct (readable S f w); [|exact P_nil].
  apply holds_run.
Qed.

Lemma holds_capture (S : system W) c : holds P (capture S c).
Proof.
  intros w. unfold capture.
  destruct (exec S c w) as [[st out] w1]. apply P_command.
Qed.

Lemma holds_capture_wc_l (S : system W) c : holds P (capture_wc_l S c).
Proof.
  intros w. unfold capture_wc_l.
  destruct (exec S c w) as [[st out] w1]. apply P_command.
Qed.

Lemma holds_read (S : system W) : holds P (read S).
Proof.
  intros w. unfold read.
  destruct (read_line S w) as [l w1]. apply P_read.
Qed.

End TraceInvariant.

Ltac in_trace H :=
  rewrite ?elem_of_cons, ?elem_of_nil in H;
  repeat match type of H with
         | _ ∨ _ => destruct H as [H|H]
         end.

Ltac trace_step :=
  match goal with
  | |- holds _ (_ ≫= _) => apply holds_bind; try assumption; [|intros ?]
  | |- holds _ (mret _) => apply holds_ret; assumption
  | |- holds _ (exit _) => apply holds_exit; assumption
  | |- holds _ (run _ _) => apply holds_run; assumption
  | |- holds _ (run_from _ _ _) => apply holds_run_from; assumption
  | |- holds _ (capture _ _) => apply holds_capture; assumption
  | |- holds _ (capture_wc_l _ _) => apply holds_capture_wc_l; assumption
  | |- holds _ (read _) => apply holds_read; assumption
  | |- holds _ (test_e _ _) => apply holds_test_e; assumption
  | |- holds _ (expand _ _) => apply holds_expand; assumption
  | |- holds _ (expand_all _ _) => apply holds_expand_all; assumption
  | |- holds _ (printf _) => apply holds_printf
  | |- holds _ (if ?b then _ else _) => destruct b
  | |- holds _ (let _ := _ in _) => cbv zeta
  end.

End ShellFacts.

(** ** The [idaes-docker] script *)

Module DockerSpec.
Import Shell Docker ShellFacts.

Lemma usage_run {W A} (w : W) : @usage W A w = (Exit 1, w, usage_events).
Proof. reflexivity. Qed.

Ltac not_usage_line :=
  unfold usage_lines; rewrite !not_elem_of_cons;
  repeat split; try discriminate; apply not_elem_of_nil.

Section Invariant.
Context {W : Type} (S : system W) (P : list event → Prop).
Hypothesis P_nil : P [].
Hypothesis P_app : ∀ a b, P a → P b → P (a ++ b).
Hypothesis P_command : ∀ c st, P [EStart c; EFinish c st].
Hypothesis P_read : P [ERead].
Hypothesis P_printf : ∀ fmt, fmt ∉ usage_lines → P [EPrintf fmt].

Lemma install_image_holds : holds P (install_image S).
Proof.
  unfold install_image. repeat trace_step; apply P_printf; not_usage_line.
Qed.

Lemma check_image_holds : holds P (check_image S).
Proof.
  unfold check_image, install_image_help.
  repeat trace_step; try apply install_image_holds;
    apply P_printf; not_usage_line.
Qed.

Lemma build_image_holds args : holds P (build_image S args).
Proof.
  unfold build_image. repeat trace_step; apply P_printf; not_usage_line.
Qed.

Lemma main_holds args :
  default "" (head args) ∈ working_commands → holds P (main S args).
Proof.
  intros Hin. unfold main. cbv zeta.
  set (arg1 := default "" (head args)) in *. clearbody arg1.
  unfold working_commands in Hin.
  rewrite !elem_of_cons, elem_of_nil in Hin.
  apply holds_bind; try assumption.
  { case_bool_decide; [|apply holds_ret; assumption].
    subst arg1. exfalso. intuition discriminate. }
  intros _.
  repeat (case_bool_decide; [repeat trace_step|]);
    try apply check_image_holds; try apply install_image_holds;
    try apply build_image_holds;
    try (apply P_printf; not_usage_line);
    exfalso; intuition congruence.
Qed.

End Invariant.

(** Either the dispatcher runs one of the working commands, or all it
    does is print the usage message and [exit 1]. *)
Lemma main_cases {W} (S : system W) (args : list string) (w : W) :
  default "" (head args) ∈ working_commands
  ∨ main S args w = (Exit 1, w, usage_events).
Proof.
  unfold main, working_commands. cbv zeta.
  set (arg1 := default "" (head args)). clearbody arg1.
  rewrite !elem_of_cons.
  destruct (decide (arg1 = "test")); [tauto|].
  destruct (decide (arg1 = "notebook")); [tauto|].
  destruct (decide (arg1 = "update")); [tauto|].
  destruct (decide (arg1 = "create")); [tauto|].
  right. unfold mbind, sh_bind, bind.
  case_bool_decide; [reflexivity|].
  cbn. repeat (case_bool_decide; [congruence|]).
  case_bool_decide; reflexivity.
Qed.

Lemma serial_usage : serial usage_events.
Proof. repeat constructor. Qed.

(** C1: without a first argument, or with a first argument that is none
    of test, notebook, update, create, help and -h, the script prints the
    usage message and terminates with exit code 1 (and does nothing
    else). *)
Theorem unknown_command_usage_exit_1 {W} (S : system W)
    (args : list string) (w : W) :
  (∀ a, head args = Some a →
        a ∉ ["test"; "notebook"; "update"; "create"; "help"; "-h"]) →
  main S args w = (Exit 1, w, usage_events)
  ∧ exit_code (main S args w) = Some 1.
Proof.
  intros H.
  destruct (main_cases S args w) as [Hin|Heq]; [|by rewrite Heq].
  exfalso. destruct args as [|a args]; simpl in Hin.
  - unfold working_commands in Hin.
    rewrite !elem_of_cons, elem_of_nil in Hin. intuition discriminate.
  - specialize (H a eq_refl). revert H Hin. unfold working_commands.
    rewrite !not_elem_of_cons, !elem_of_cons, elem_of_nil.
    intuition congruence.
Qed.

Lemma unknown_command_usage_exit_1_witness :
  main (Sim.docker_machine true 0 false "") ["frobnicate"] 0%nat
  = (Exit 1, 0%nat, usage_events)
  ∧ main (Sim.docker_machine true 0 false "") [] 0%nat
  = (Exit 1, 0%nat, usage_events).
Proof.
  split.
  - apply (unknown_command_usage_exit_1
             (Sim.docker_machine true 0 false "") ["frobnicate"] 0%nat).
    intros a [= <-]. not_usage_line.
  - apply (unknown_command_usage_exit_1
             (Sim.docker_machine true 0 false "") [] 0%nat).
    intros a [=].
Defined.


(** Without [wget], [update] falls back on [curl -o]; a download that
    exits with status 3 ends the script after three commands. *)
Example update_with_curl_failing :
  main (Sim.docker_machine false 3 false "") ["update"] 0%nat
  = (Exit 1, 3%nat,
     [ EPrintf "Updating IDAES image...\n";
       EStart wget_probe; EFinish wget_probe 127;
       EStart curl_probe; EFinish curl_probe 0;
       EPrintf "Downloading image..\n";
       EStart (download "curl -o idaes-pse-docker-latest.tgz");
       EFinish (download "curl -o idaes-pse-docker-latest.tgz") 3;
       EPrintf "Download failed. Abort command.\n" ]).
Proof. reflexivity. Qed.

Lemma download_distinct (g : string) :
  download g ≠ wget_probe ∧ download g ≠ curl_probe
  ∧ download g ≠ docker_load.
Proof. repeat split; discriminate. Qed.

#[local] Arguments download : simpl never.
#[local] Arguments wget_probe : simpl never.
#[local] Arguments curl_probe : simpl never.
#[local] Arguments docker_load : simpl never.

(** C2: in [install_image], whenever the download command ([wget] or
    [curl -o ...] on the image URL) exits with a non-zero status, the next
    thing the script does is print "Download failed. Abort command.";
    it then leaves with exit code 1, and [docker load] is never
    started. *)
Theorem download_failure_aborts {W} (S : system W) (w : W)
    (getcmd : string) (st : Z) :
  EFinish (download getcmd) st ∈ trace_of (install_image S w) →
  st ≠ 0 →
  outcome_of (install_image S w) = Exit 1
  ∧ (∃ before,
        trace_of (install_image S w)
        = before ++ [EFinish (download getcmd) st;
                     EPrintf "Download failed. Abort command.\n"])
  ∧ EStart docker_load ∉ trace_of (install_image S w).
Proof.
  destruct (download_distinct getcmd) as (Hw & Hc & Hl).
  unfold install_image, trace_of, outcome_of. cbv zeta.
  unfold mbind, mret, sh_bind, sh_ret, bind, ret, run_from, run, printf, exit.
  destruct (exec S wget_probe w) as [[s1 o1] w1].
  case_bool_decide.
  - cbn. destruct (exec S (download "wget") w1) as [[s2 o2] w2].
    case_bool_decide; cbn.
    + intros Hin Hst. in_trace Hin; try contradiction; try congruence.
      assert (download "wget" = download getcmd) as <- by congruence.
      assert (s2 = st) as <- by congruence.
      split; [done|]. split; [by eexists [_; _; _; _]|].
      rewrite !not_elem_of_cons. repeat split; try discriminate.
      apply not_elem_of_nil.
    + destruct (readable S install_image_filenm w2);
        [destruct (exec S docker_load w2) as [[s3 o3] w3]|]; cbn;
        intros Hin Hst; exfalso; in_trace Hin; try contradiction; congruence.
  - cbn. destruct (exec S curl_probe w1) as [[s1' o1'] w1'].
    case_bool_decide; cbn.
    + destruct (exec S (download ("curl -o " +:+ install_image_filenm)) w1')
        as [[s2 o2] w2].
      case_bool_decide; cbn.
      * intros Hin Hst. in_trace Hin; try contradiction; try congruence.
        assert (download ("curl -o " +:+ install_image_filenm)
                = download getcmd) as <- by congruence.
        assert (s2 = st) as <- by congruence.
        split; [done|]. split; [by eexists [_; _; _; _; _; _]|].
        rewrite !not_elem_of_cons. repeat split; try discriminate.
        apply not_elem_of_nil.
      * destruct (readable S install_image_filenm w2);
          [destruct (exec S docker_load w2) as [[s3 o3] w3]|]; cbn;
          intros Hin Hst; exfalso;
          in_trace Hin; try contradiction; congruence.
    + intros Hin Hst. exfalso. in_trace Hin; try contradiction; congruence.
Qed.

Lemma download_failure_aborts_witness :
  outcome_of (install_image Sim.failing_download 0%nat) = Exit 1
  ∧ (∃ before,
        trace_of (install_image Sim.failing_download 0%nat)
        = before ++ [EFinish (download "wget") 1;
                     EPrintf "Download failed. Abort command.\n"])
  ∧ EStart docker_load ∉ trace_of (install_image Sim.failing_download 0%nat).
Proof.
  apply (download_failure_aborts Sim.failing_download 0%nat "wget" 1).
  - vm_compute. do 4 apply list_elem_of_further. apply list_elem_of_here.
  - discriminate.
Defined.

(** C7: the script runs one command at a time.  Whatever the arguments
    and the answers of the outside world, every external command (a
    simple command or a whole pipeline) that the script launches is
    waited for before the script does anything else; nothing is left
    running in the background. *)
Theorem one_command_at_a_time {W} (S : system W) (args : list string)
    (w : W) :
  serial (trace_of (main S args w)).
Proof.
  destruct (main_cases S args w) as [Hin| ->]; [|apply serial_usage].
  apply (main_holds S serial); auto using serial_app, serial.
Qed.

Lemma silent_app a b : silent a → silent b → silent (a ++ b).
Proof.
  intros Ha Hb line Hl Hin. apply elem_of_app in Hin as [Hin|Hin].
  - exact (Ha line Hl Hin).
  - exact (Hb line Hl Hin).
Qed.

Lemma main_silent {W} (S : system W) args w :
  default "" (head args) ∈ working_commands →
  silent (trace_of (main S args w)).
Proof.
  intros Hin. apply (main_holds S silent); try assumption.
  - intros line _ H. by apply elem_of_nil in H.
  - apply silent_app.
  - intros c st line _ H. in_trace H; try contradiction; discriminate.
  - intros line _ H. in_trace H; try contradiction; discriminate.
  - intros fmt Hfmt line Hl H. in_trace H; try contradiction. congruence.
Qed.

(** C9: every run of the dispatcher that prints (a line of) the usage
    message terminates with exit code 1; in particular the documented
    commands help and -h print the usage message and exit with code 1. *)
Theorem usage_exits_1 {W} (S : system W) (args : list string) (w : W) :
  (∀ line, line ∈ usage_lines →
           EPrintf line ∈ trace_of (main S args w) →
           exit_code (main S args w) = Some 1)
  ∧ (head args = Some "help" ∨ head args = Some "-h" →
     main S args w = (Exit 1, w, usage_events)
     ∧ exit_code (main S args w) = Some 1).
Proof.
  destruct (main_cases S args w) as [Hin|Heq].
  - split.
    + intros line Hl Hp. exfalso.
      exact (main_silent S args w Hin line Hl Hp).
    + intros Hh. exfalso. unfold working_commands in Hin.
      rewrite !elem_of_cons, elem_of_nil in Hin.
      destruct Hh as [Hh|Hh]; rewrite Hh in Hin; simpl in Hin;
        intuition discriminate.
  - rewrite Heq. split; [reflexivity|]. intros _. split; reflexivity.
Qed.

Lemma usage_exits_1_witness :
  exit_code (main Sim.failing_download ["help"] 0%nat) = Some 1
  ∧ main Sim.failing_download ["-h"] 0%nat = (Exit 1, 0%nat, usage_events).
Proof.
  split.
  - apply (proj1 (usage_exits_1 Sim.failing_download ["help"] 0%nat)
             "User commands:\n").
    + vm_compute. apply list_elem_of_further, list_elem_of_here.
    + vm_compute. apply list_elem_of_further, list_elem_of_here.
  - apply (proj2 (usage_exits_1 Sim.failing_download ["-h"] 0%nat)).
    by right.
Defined.

#[local] Arguments docker_images_q : simpl never.
#[local] Arguments docker_save : simpl never.
#[local] Arguments docker_build : simpl never.
#[local] Arguments detect_version : simpl never.
#[local] Arguments words : simpl never.
#[local] Arguments chomp : simpl never.

(** C10: [build_image] skips what is already there.  Let [ver] be the
    version the package reports.  If the archive
    idaes-pse-docker-[ver].tgz exists, the function only prints that
    there is nothing to do: it starts no [docker build] and no
    [docker save] (no command at all after the version query), and
    leaves the world as the version query left it.  If the archive is
    absent but [docker images -q] lists an image for the version tag,
    [docker build] is skipped and [docker save ... | gzip] is the only
    command run after the query. *)
Theorem build_image_skips_existing {W} (S : system W) (args : list string)
    (w w1 : W) (st : Z) (out : string) :
  exec S detect_version w = (st, out, w1) →
  let ver := chomp out in
  let imgname := "idaes-pse-docker-" +:+ ver +:+ ".tgz" in
  let vertag := "idaes/idaes_pse:v" +:+ ver in
  (file_exists S imgname w1 = true →
   build_image S args w
   = (Ret tt, w1,
      detected st ver
      ++ [EPrintf ("Nothing to do: image file " +:+ imgname
                   +:+ " already exists\n")])
   ∧ (∀ tags, EStart (docker_build tags) ∉ trace_of (build_image S args w))
   ∧ (∀ ids target,
        EStart (docker_save ids target) ∉ trace_of (build_image S args w)))
  ∧ (file_exists S imgname w1 = false →
     ∀ st2 out2 w2 st3 out3 w3,
       let query := docker_images_q (words S vertag w1) in
       exec S query w1 = (st2, out2, w2) →
       chomp out2 ≠ "" →
       let save :=
         docker_save (words S (chomp out2) w2) (words S imgname w2) in
       exec S save w2 = (st3, out3, w3) →
       build_image S args w
       = (Ret tt, w3,
          detected st ver
          ++ [EStart query; EFinish query st2;
              EPrintf ("Nothing to do: image " +:+ vertag
                       +:+ " already exists (" +:+ chomp out2 +:+ ")\n");
              EPrintf "Saving image..\n";
              EStart save; EFinish save st3;
              EPrintf ("Done: " +:+ imgname +:+ " \n")])
       ∧ (∀ tags,
            EStart (docker_build tags) ∉ trace_of (build_image S args w))).
Proof.
  intros Hver ver imgname vertag.
  assert (Hpre : ∀ (k : string → sh W unit),
            (capture S detect_version ≫= k) w
            = (let '(o, w2, t2) := k ver w1 in
               (o, w2,
                [EStart detect_version; EFinish detect_version st] ++ t2))).
  { intros k. unfold mbind, sh_bind, bind, capture. by rewrite Hver. }
  split.
  - intros Hex.
    assert (Hrun : build_image S args w
      = (Ret tt, w1,
         detected st ver
         ++ [EPrintf ("Nothing to do: image file " +:+ imgname
                      +:+ " already exists\n")])).
    { unfold build_image. rewrite Hpre.
      subst imgname vertag. revert Hex. generalize ver. intros v Hex.
      unfold mbind, sh_bind, bind, printf, test_e. cbn in *.
      rewrite Hex. reflexivity. }
    rewrite Hrun. split; [reflexivity|]. unfold trace_of. cbn.
    split; intros; intros Hin; in_trace Hin; try contradiction; discriminate.
  - intros Hex st2 out2 w2 st3 out3 w3 query Hq Hid save Hs.
    assert (Hrun : build_image S args w = (Ret tt, w3,
          detected st ver
          ++ [EStart query; EFinish query st2;
              EPrintf ("Nothing to do: image " +:+ vertag
                       +:+ " already exists (" +:+ chomp out2 +:+ ")\n");
              EPrintf "Saving image..\n";
              EStart save; EFinish save st3;
              EPrintf ("Done: " +:+ imgname +:+ " \n")])).
    { unfold build_image. rewrite Hpre.
      subst save query imgname vertag. revert Hex Hq Hs.
      generalize ver. intros v Hex Hq Hs.
      unfold mbind, sh_bind, bind, printf, test_e, expand, capture, run.
      cbn in *. rewrite Hex. cbn.
      change (IMAGE_REPO +:+ "/" +:+ IMAGE_TAG +:+ ":v" +:+ v)
        with ("idaes/idaes_pse:v" +:+ v).
      rewrite Hq. cbn.
      rewrite bool_decide_eq_false_2 by assumption. cbn.
      rewrite Hs. reflexivity. }
    rewrite Hrun. split; [reflexivity|]. unfold trace_of. cbn.
    intros; intros Hin; in_trace Hin; try contradiction; discriminate.
Qed.

Lemma build_image_skips_existing_witness :
  build_image Sim.archive_present ["latest"] 0%nat
  = (Ret tt, 1%nat,
     detected 0 "1.2.0"
     ++ [EPrintf
           "Nothing to do: image file idaes-pse-docker-1.2.0.tgz already exists\n"])
  ∧ trace_of (build_image Sim.image_present ["latest"] 0%nat)
    = detected 0 "1.2.0"
      ++ [EStart (docker_images_q ["idaes/idaes_pse:v1.2.0"]);
          EFinish (docker_images_q ["idaes/idaes_pse:v1.2.0"]) 0;
          EPrintf
            "Nothing to do: image idaes/idaes_pse:v1.2.0 already exists (4f2a9c01d3)\n";
          EPrintf "Saving image..\n";
          EStart (docker_save ["4f2a9c01d3"] ["idaes-pse-docker-1.2.0.tgz"]);
          EFinish (docker_save ["4f2a9c01d3"] ["idaes-pse-docker-1.2.0.tgz"]) 0;
          EPrintf "Done: idaes-pse-docker-1.2.0.tgz \n"].
Proof.
  split.
  - refine (proj1 (proj1 (build_image_skips_existing Sim.archive_present
                            ["latest"] 0%nat 1%nat 0 "1.2.0" eq_refl)
                         eq_refl)).
  - refine (f_equal trace_of
              (proj1 (proj2 (build_image_skips_existing Sim.image_present
                               ["latest"] 0%nat 1%nat 0 "1.2.0" eq_refl)
                            eq_refl 0 "4f2a9c01d3" 2%nat 0 "" 3%nat
                            eq_refl _ eq_refl))).
    discriminate.
Defined.

End DockerSpec.

(** ** The build of the [cubic_roots] plug-in *)

Module MakeSpec.
Import Make.
#[local] Open Scope nat_scope.

Lemma append_empty_r (s : string) : s +:+ "" = s.
Proof.
  induction s as [|c s IH]; [done|].
  change (String c (s +:+ "") = String c s). by rewrite IH.
Qed.

Lemma settled_plain env : settled env = true → plain env = true.
Proof. unfold settled. by intros [H _]%andb_true_iff. Qed.

Lemma settled_literal env v :
  settled env = true → env "ASL_BUILD" = Some v → literal v = true.
Proof. unfold settled. intros [_ H]%andb_true_iff Hv. by rewrite Hv in H. Qed.

Lemma read_variables_eq env :
  settled env = true → read_variables env = Some (vars env).
Proof.
  intros Hs. unfold read_variables, vars. rewrite (settled_plain env Hs).
  destruct (env "ASL_BUILD") as [v|] eqn:E.
  - pose proof (settled_literal env v Hs E) as Hl.
    cbn. rewrite E, Hl. cbn. by rewrite !append_empty_r.
  - cbn. rewrite E. reflexivity.
Qed.

Lemma include_option_cases env :
  (default "" (env "ASL_BUILD") = "" ∧ include_option env = "")
  ∨ (∃ asl, env "ASL_BUILD" = Some asl ∧ asl ≠ ""
            ∧ include_option env = " -I" +:+ asl).
Proof.
  unfold include_option. destruct (env "ASL_BUILD") as [[|c s]|]; simpl; eauto.
Qed.

Lemma expand_CFLAGS env :
  settled env = true →
  expand env (vars env) [Ref "CFLAGS"]
  = Some ("-Wall -Wextra -O3" +:+ include_option env).
Proof.
  intros Hs. unfold vars, include_option.
  destruct (env "ASL_BUILD") as [[|c s]|] eqn:E; cbn; try reflexivity.
  rewrite E, (settled_literal env _ Hs E). cbn.
  rewrite !append_empty_r. reflexivity.
Qed.

Lemma expand_compile env :
  settled env = true →
  expand env (vars env)
    [Ref "CC"; Lit " -c "; Ref "CFLAGS";
     Lit " -fPIC cubic_roots.c -o cubic_roots.o"]
  = Some (compile_command env).
Proof.
  intros Hs. unfold vars, compile_command, include_option.
  destruct (env "ASL_BUILD") as [[|c s]|] eqn:E; cbn; try reflexivity.
  rewrite E, (settled_literal env _ Hs E). cbn.
  rewrite !append_empty_r. reflexivity.
Qed.

Lemma expand_link env :
  expand env (vars env)
    [Ref "CC"; Lit " "; Ref "LDFLAGS"; Lit " cubic_roots.o -o cubic_roots.so"]
  = Some link_command.
Proof. reflexivity. Qed.

Lemma commands_compile env :
  commands [compile_command env] = [(false, compile_command env)].
Proof. reflexivity. Qed.

Lemma commands_link : commands [link_command] = [(false, link_command)].
Proof. reflexivity. Qed.

Lemma explicit_elem {W} (sys : system W) ts t (w : W) :
  explicit sys ts w = true → t ∈ ts → builtin sys t w = false.
Proof.
  unfold explicit. rewrite forallb_forall. intros H Hin.
  apply list_elem_of_In in Hin. apply H in Hin. by apply negb_true_iff.
Qed.

Section MakeRun.
Context {W : Type} (sys : system W) (env : string → option string).
Variable vs : variables.
Hypothesis vs_compile :
  expand env vs [Ref "CC"; Lit " -c "; Ref "CFLAGS";
                 Lit " -fPIC cubic_roots.c -o cubic_roots.o"]
  = Some (compile_command env).
Hypothesis vs_link :
  expand env vs [Ref "CC"; Lit " "; Ref "LDFLAGS";
                 Lit " cubic_roots.o -o cubic_roots.so"]
  = Some link_command.

Lemma update_S (rs : list rule) (ph : list string) (fuel : nat) (t : string)
    (seen : list string) (w : W) :
  update sys env vs rs ph (S fuel) t seen w =
  if existsb (String.eqb t) seen then (Run None w [], seen)
  else
    match rule_for t rs with
    | None =>
        if builtin sys t w then (Run (Some Unfollowed) w [], seen)
        else
          match mtime sys t w with
          | Some _ => (Run None w [], t :: seen)
          | None => (Run (Some (NoRule t)) w [], seen)
          end
    | Some r =>
        if negb (is_phony ph t)
           && match recipe r with [] => true | _ => false end
           && builtin sys t w
        then (Run (Some Unfollowed) w [], seen)
        else
          let this := mtime sys t w in
          let deps :=
            foldl (λ acc d,
                     match result acc.1 with
                     | Some _ => acc
                     | None =>
                         let rd :=
                           update sys env vs rs ph fuel d acc.2 (world acc.1) in
                         (Run (result rd.1) (world rd.1)
                              (log acc.1 ++ log rd.1), rd.2)
                     end)
                  (Run None w [], seen) (prereqs r) in
          match result deps.1 with
          | Some _ => deps
          | None =>
              if out_of_date sys ph t this (prereqs r) (world deps.1) then
                let rr := run_recipe sys env vs t (recipe r) (world deps.1) in
                (Run (result rr) (world rr) (log deps.1 ++ log rr),
                 t :: deps.2)
              else (deps.1, t :: deps.2)
          end
    end.
Proof. reflexivity. Qed.

Lemma run_recipe_one (t : string) (l : text) (cmd : string) (w : W) :
  expand env vs l = Some cmd → commands [cmd] = [(false, cmd)] →
  run_recipe sys env vs t [l] w = run1 sys cmd t w.
Proof.
  intros H Hc. unfold run_recipe, run1. cbn [mapM]. rewrite H.
  cbn [mbind option_bind mret option_ret]. rewrite Hc. cbn [run_commands].
  by destruct (shell sys cmd w) as [[] w1].
Qed.

(** The source file: no rule, no built-in rule, so it has to be there. *)
Lemma update_source (n : nat) (w : W) :
  builtin sys "cubic_roots.c" w = false →
  update sys env vs rules phony (S n) "cubic_roots.c" [] w
  = match mtime sys "cubic_roots.c" w with
    | Some _ => (Run None w [], ["cubic_roots.c"])
    | None => (Run (Some (NoRule "cubic_roots.c")) w [], [])
    end.
Proof.
  intros Hb. rewrite update_S. cbn [existsb].
  replace (rule_for "cubic_roots.c" rules) with (@None rule) by reflexivity.
  by rewrite Hb.
Qed.

Lemma update_object (n : nat) (w : W) (tc : nat) :
  builtin sys "cubic_roots.c" w = false →
  mtime sys "cubic_roots.c" w = Some tc →
  update sys env vs rules phony (S (S n)) "cubic_roots.o" [] w
  = (compiled sys env w, ["cubic_roots.o"; "cubic_roots.c"]).
Proof.
  intros Hb H. rewrite update_S. cbn [existsb].
  replace (rule_for "cubic_roots.o" rules) with
    (Some (Rule "cubic_roots.o" ["cubic_roots.c"]
      [ [Ref "CC"; Lit " -c "; Ref "CFLAGS";
         Lit " -fPIC cubic_roots.c -o cubic_roots.o"] ])) by reflexivity.
  cbn [prereqs recipe foldl result world log fst snd andb negb].
  rewrite andb_false_r. cbv zeta.
  rewrite (update_source n w Hb), H.
  cbn [result world log app fst snd]. unfold compiled.
  destruct (out_of_date _ _ _ _ _ _); [|reflexivity].
  rewrite (run_recipe_one _ _ _ _ vs_compile (commands_compile env)).
  by destruct (run1 _ _ _ _).
Qed.

Lemma update_shared (n : nat) (w : W) (tc : nat) :
  builtin sys "cubic_roots.c" w = false →
  mtime sys "cubic_roots.c" w = Some tc →
  (update sys env vs rules phony (S (S (S n))) "cubic_roots.so" [] w).1
  = linked sys (compiled sys env w) w.
Proof.
  intros Hb H. rewrite update_S. cbn [existsb].
  replace (rule_for "cubic_roots.so" rules) with
    (Some (Rule "cubic_roots.so" ["cubic_roots.o"]
      [ [Ref "CC"; Lit " "; Ref "LDFLAGS";
         Lit " cubic_roots.o -o cubic_roots.so"] ])) by reflexivity.
  cbn [prereqs recipe foldl result world log fst snd andb negb].
  rewrite andb_false_r. cbv zeta.
  rewrite (update_object n w tc Hb H). cbn [fst snd]. unfold linked.
  destruct (compiled sys env w) as [[e|] w1 l1];
    cbn [result world log app fst snd]; [reflexivity|].
  destruct (out_of_date _ _ _ _ _ _); [|reflexivity].
  by rewrite (run_recipe_one _ _ _ _ vs_link commands_link).
Qed.

Lemma update_ALL (n : nat) (w : W) (tc : nat) :
  builtin sys "ALL" w = false →
  builtin sys "cubic_roots.c" w = false →
  mtime sys "cubic_roots.c" w = Some tc →
  (update sys env vs rules phony (S (S (S (S n)))) "ALL" [] w).1
  = linked sys (compiled sys env w) w.
Proof.
  intros Ha Hb H. rewrite update_S. cbn [existsb].
  replace (rule_for "ALL" rules) with
    (Some (Rule "ALL" ["cubic_roots.so"] [])) by reflexivity.
  cbn [prereqs recipe foldl result world log fst snd].
  rewrite Ha, andb_false_r. cbv zeta.
  pose proof (update_shared n w tc Hb H) as Hs.
  destruct (update sys env vs rules phony (S (S (S n))) "cubic_roots.so" [] w)
    as [r seen]. cbn [fst snd] in *. subst r.
  destruct (linked sys (compiled sys env w) w) as [[e|] w1 l1];
    cbn [result world log app fst snd]; [reflexivity|].
  unfold run_recipe. cbn [mapM mret option_ret commands omap run_commands].
  cbn [result world log]. rewrite app_nil_r.
  by destruct (out_of_date _ _ _ _ _ _).
Qed.
End MakeRun.

Lemma explicit_build {W} (sys : system W) (w : W) :
  explicit sys ("ALL" :: "cubic_roots.c" :: makefiles) w = true →
  builtin sys "ALL" w = false ∧ builtin sys "cubic_roots.c" w = false
  ∧ existsb (λ m, builtin sys m w) makefiles = false.
Proof.
  unfold explicit, makefiles. cbn [forallb existsb].
  rewrite !andb_true_iff, !negb_true_iff. intros (-> & -> & -> & -> & _).
  done.
Qed.

Lemma make_eq {W} (sys : system W) env (w : W) (tc : nat) :
  settled env = true →
  explicit sys ("ALL" :: "cubic_roots.c" :: makefiles) w = true →
  mtime sys "cubic_roots.c" w = Some tc →
  make sys env w = linked sys (compiled sys env w) w.
Proof.
  intros Hs Hx H. destruct (explicit_build sys w Hx) as (Ha & Hb & Hm).
  unfold make. rewrite (read_variables_eq env Hs).
  replace (default_goal rules) with (Some "ALL") by reflexivity.
  unfold run_goal. rewrite Hm.
  replace (S (length rules)) with 5 by reflexivity.
  exact (update_ALL sys env (vars env) (expand_compile env Hs)
           (expand_link env) 1 w tc Ha Hb H).
Qed.


Lemma compile_is_not_link env : compile_command env ≠ link_command.
Proof. discriminate. Qed.

Ltac in_or H :=
  repeat match type of H with
         | _ ∨ _ => destruct H as [H|H]
         | False => destruct H
         | compile_command _ = link_command =>
             by apply compile_is_not_link in H
         | link_command = compile_command _ =>
             symmetry in H; by apply compile_is_not_link in H
         end.

Lemma out_of_date_behind {W} (sys : system W) t this d (w : W) :
  out_of_date sys phony t this [d] w = true
  ↔ behind this (mtime sys d w).
Proof.
  unfold out_of_date, behind, older, phony. cbn [is_phony existsb orb].
  destruct this as [t0|]; [|by destruct (mtime sys d w)].
  destruct (mtime sys d w) as [td|]; [|done].
  rewrite orb_false_r. apply bool_decide_eq_true.
Qed.

Lemma behind_dec file dep : behind file dep ∨ ¬ behind file dep.
Proof.
  destruct dep as [td|]; [|by left]. destruct file as [t|]; [|by left].
  cbn. lia.
Qed.



Lemma recipe_lines_compile env :
  settled env = true →
  recipe_lines env "cubic_roots.o" = Some [compile_command env].
Proof.
  intros Hs. unfold recipe_lines. rewrite (read_variables_eq env Hs).
  replace (rule_for "cubic_roots.o" rules) with
    (Some (Rule "cubic_roots.o" ["cubic_roots.c"]
      [ [Ref "CC"; Lit " -c "; Ref "CFLAGS";
         Lit " -fPIC cubic_roots.c -o cubic_roots.o"] ])) by reflexivity.
  cbn [mbind option_bind recipe mapM]. rewrite (expand_compile env Hs).
  reflexivity.
Qed.

Lemma recipe_lines_link env :
  settled env = true →
  recipe_lines env "cubic_roots.so" = Some [link_command].
Proof.
  intros Hs. unfold recipe_lines. rewrite (read_variables_eq env Hs).
  reflexivity.
Qed.

Lemma CFLAGS_eq env :
  settled env = true →
  CFLAGS env = Some ("-Wall -Wextra -O3" +:+ include_option env).
Proof.
  intros Hs. unfold CFLAGS. rewrite (read_variables_eq env Hs).
  cbn [mbind option_bind]. by apply expand_CFLAGS.
Qed.

Lemma include_option_ext env env' :
  env' "ASL_BUILD" = env "ASL_BUILD" → include_option env' = include_option env.
Proof. unfold include_option. by intros ->. Qed.

Lemma settled_ext env env' :
  (∀ name, name ∈ "ASL_BUILD" :: special_variables → env' name = env name) →
  settled env' = settled env.
Proof.
  intros H. unfold settled, plain.
  rewrite (H "ASL_BUILD") by apply list_elem_of_here. f_equal.
  assert (Hl : ∀ name, name ∈ special_variables → env' name = env name).
  { intros n Hn. apply H. by apply list_elem_of_further. }
  clear H. induction special_variables as [|n l IH]; [done|].
  cbn [forallb]. rewrite (Hl n) by apply list_elem_of_here.
  rewrite IH; [done|]. intros m Hm. apply Hl. by apply list_elem_of_further.
Qed.




End MakeSpec.

(** ** The CI job *)

Module CISpec.
Import CI.

Section Runner.
Context {W : Type} (exec : executor W).

Lemma run_steps_failed (ss : list step) (w : W) :
  Forall (λ s, condition_of s = on_success) ss →
  run_steps exec true ss w = [].
Proof.
  induction 1 as [|s ss Hs _ IH]; [reflexivity|].
  cbn [run_steps]. rewrite Hs. exact IH.
Qed.

Lemma run_steps_on_success (ss : list step) :
  Forall (λ s, condition_of s = on_success) ss →
  ∀ w, let log := run_steps exec false ss w in
       log.*1 = take (length log) ss
       ∧ (∀ i s st, log !! i = Some (s, st) → st ≠ 0 → length log = S i)
       ∧ ((∀ i s st, log !! i = Some (s, st) → st = 0) → log.*1 = ss).
Proof.
  induction 1 as [|s ss Hs Hss IH]; intros w.
  - cbn. split; [done|]. split; [|done]. intros i s st H. by destruct i.
  - cbn [run_steps]. rewrite Hs. cbn [enabled negb].
    destruct (exec s w) as [st w1]. cbn [orb].
    case_bool_decide as Hst; cbn [negb].
    + specialize (IH w1). cbv zeta in IH. destruct IH as (IH1 & IH2 & IH3).
      cbv zeta. cbn [fmap list_fmap fst length take].
      split; [by f_equal|]. split.
      * intros [|i] s' st' Hl Hne; cbn in Hl.
        -- congruence.
        -- f_equal. eapply IH2; eauto.
      * intros Hall. f_equal. apply IH3.
        intros i s' st' Hl. exact (Hall (S i) s' st' Hl).
    + rewrite (run_steps_failed ss w1 Hss). cbv zeta. cbn.
      split; [done|]. split.
      * intros [|i] s' st' Hl Hne; [done|]. by destruct i.
      * intros Hall. exfalso. apply Hst. exact (Hall 0%nat s st eq_refl).
Qed.
End Runner.

Lemma steps_on_success : Forall (λ s, condition_of s = on_success) steps.
Proof. repeat constructor. Qed.

(** C4: the job lists solver installation, installation of the
    requirements, installation of the package, the documentation build,
    the tests and the coverage report in this order; the steps that run
    are an initial part of the list, taken in order; a step that exits
    non-zero is the last one to run; and when no step fails all of them
    run. *)
Theorem steps_run_in_sequence {W} (exec : executor W) (w : W) :
  ( steps !! 1%nat = Some (run "./install-solvers.sh")
    ∧ steps !! 3%nat = Some (run "sudo pip install -qr requirements.txt")
    ∧ steps !! 5%nat = Some (run "sudo python setup.py -q install")
    ∧ steps !! 6%nat = Some (run "cd docs && make html")
    ∧ steps !! 7%nat
      = Some (run ("pytest docs idaes -m " +:+ dquote +:+ "not nocircleci"
                   +:+ dquote))
    ∧ steps !! 8%nat = Some (run "coverage report") )
  ∧ (run_job exec w).*1 = take (length (run_job exec w)) steps
  ∧ (∀ i s st, run_job exec w !! i = Some (s, st) → st ≠ 0 →
               length (run_job exec w) = S i)
  ∧ ((∀ i s st, run_job exec w !! i = Some (s, st) → st = 0) →
     (run_job exec w).*1 = steps).
Proof.
  split; [repeat split|].
  exact (run_steps_on_success exec steps steps_on_success w).
Qed.

Lemma steps_run_in_sequence_witness :
  length (run_job Sim.docs_fail ()) = 7%nat
  ∧ (run_job Sim.all_pass ()).*1 = steps.
Proof.
  split.
  - apply (proj1 (proj2 (proj2 (steps_run_in_sequence Sim.docs_fail ())))
             6%nat (run "cd docs && make html") 2); [reflexivity|discriminate].
  - apply (proj2 (proj2 (proj2 (steps_run_in_sequence Sim.all_pass ())))).
    intros i s st H. apply list_elem_of_lookup_2 in H.
    apply list_elem_of_In in H. vm_compute in H.
    repeat (destruct H as [H|H]; [by inversion H|]). destruct H.
Defined.
End CISpec.

(** ** The Heater notebook *)

Module HeaterSpec.
Import Heater.

Lemma is_not_False_spec (v : value) :
  is_not_False v = false ↔ v = VBool false.
Proof.
  unfold is_not_False. rewrite negb_false_iff. apply bool_decide_eq_true.
Qed.

Example zero_is_not_False :
  is_not_False (VInt 0) = true ∧ is_not_False VNone = true
  ∧ is_not_False (VBool true) = true ∧ is_not_False (VBool false) = false.
Proof. repeat split. Qed.

(** C8: when [config.dynamic] is not [False], or it is [False] but
    [config.has_holdup] is not, [make_control_volume] raises [ValueError]
    with the heap as it found it: no control volume has been constructed
    and no attribute of the unit has been set.  When both are [False] no
    exception is raised, and the new control volume, with its balances
    added, is the attribute [name] of the unit; no other attribute of the
    unit and no other object changes. *)
Theorem make_control_volume_guards (F : framework) (unit : loc)
    (name : string) (cfg : config) (h : heap) :
  (dynamic cfg ≠ VBool false →
   make_control_volume F unit name cfg h
   = (Raise (ValueError
               "IdealGasIsentropcCompressor does not support dynamics"), h))
  ∧ (dynamic cfg = VBool false → has_holdup cfg ≠ VBool false →
     make_control_volume F unit name cfg h
     = (Raise (ValueError
                 "IdealGasIsentropcCompressor does not support holdup"), h))
  ∧ (dynamic cfg = VBool false → has_holdup cfg = VBool false →
     ∀ attrs, h !! unit = Some attrs →
     ∃ cv h',
       make_control_volume F unit name cfg h = (Ok (), h')
       ∧ h !! cv = None
       ∧ h' !! unit = Some (<[name := VRef cv]> attrs)
       ∧ h' !! cv = Some (built_control_volume F cfg)
       ∧ (∀ l, l ≠ unit → l ≠ cv → h' !! l = h !! l)).
Proof.
  unfold make_control_volume.
  unfold mbind, mret, py_mbind, py_mret, py_bind, py_ret, raise.
  split; [|split].
  - intros Hd. destruct (is_not_False (dynamic cfg)) eqn:E; [reflexivity|].
    by apply is_not_False_spec in E.
  - intros Hd Hh. apply is_not_False_spec in Hd. rewrite Hd.
    destruct (is_not_False (has_holdup cfg)) eqn:E; [reflexivity|].
    by apply is_not_False_spec in E.
  - intros Hd Hh attrs Hunit.
    apply is_not_False_spec in Hd, Hh. rewrite Hd, Hh.
    unfold new, setattr, call. cbv zeta.
    set (cv := fresh (dom h)).
    assert (Hcv : h !! cv = None).
    { apply not_elem_of_dom. apply is_fresh. }
    assert (Hne : unit ≠ cv) by congruence.
    eexists cv, _. split; [reflexivity|]. split; [exact Hcv|].
    split; [|split].
    + rewrite !lookup_alter_ne by congruence.
      rewrite lookup_alter_eq, lookup_insert_ne by congruence.
      by rewrite Hunit.
    + rewrite !lookup_alter_eq, lookup_alter_ne by congruence.
      rewrite lookup_insert_eq. reflexivity.
    + intros l Hl1 Hl2.
      rewrite !lookup_alter_ne, lookup_insert_ne by congruence. reflexivity.
Qed.

Lemma make_control_volume_guards_witness :
  make_control_volume Sim.framework 0%nat "control_volume"
    (Config (VInt 0) (VBool false) VNone VNone VNone VNone) Sim.one_unit
  = (Raise (ValueError
              "IdealGasIsentropcCompressor does not support dynamics"),
     Sim.one_unit)
  ∧ make_control_volume Sim.framework 0%nat "control_volume"
      (Config (VBool false) VNone VNone VNone VNone VNone) Sim.one_unit
    = (Raise (ValueError
                "IdealGasIsentropcCompressor does not support holdup"),
       Sim.one_unit)
  ∧ ∃ cv h',
      make_control_volume Sim.framework 0%nat "control_volume"
        Sim.steady_config Sim.one_unit = (Ok (), h')
      ∧ Sim.one_unit !! cv = None
      ∧ h' !! 0%nat = Some (<["control_volume" := VRef cv]> ∅)
      ∧ h' !! cv = Some (built_control_volume Sim.framework Sim.steady_config)
      ∧ (∀ l, l ≠ 0%nat → l ≠ cv → h' !! l = Sim.one_unit !! l).
Proof.
  split; [|split].
  - apply (proj1 (make_control_volume_guards _ _ _ _ _)). discriminate.
  - apply (proj1 (proj2 (make_control_volume_guards _ _ _ _ _)));
      [reflexivity|discriminate].
  - apply (proj2 (proj2 (make_control_volume_guards Sim.framework 0%nat
                           "control_volume" Sim.steady_config Sim.one_unit)));
      reflexivity.
Defined.
End HeaterSpec.

(** ** More about traces *)

Module ShellTracesFacts.
Import Shell ShellFacts ShellTraces.

Lemma bind_ret_l {W A B} (a : A) (k : A → sh W B) (w : W) :
  (mret a ≫= k) w = k a w.
Proof.
  unfold mbind, mret, sh_bind, sh_ret, bind, ret.
  by destruct (k a w) as [[o w2] t2].
Qed.

Lemma bind_printf {W B} (fmt : string) (k : unit → sh W B) (w : W) :
  (printf fmt ≫= k) w
  = (let '(o, w2, t2) := k tt w in (o, w2, EPrintf fmt :: t2)).
Proof. reflexivity. Qed.

Lemma bind_run {W B} (S : system W) (c : command) (k : Z → sh W B)
    (w w1 : W) (st : Z) (out : string) :
  exec S c w = (st, out, w1) →
  (run S c ≫= k) w
  = (let '(o, w2, t2) := k st w1 in
     (o, w2, EStart c :: EFinish c st :: t2)).
Proof.
  intros H. unfold mbind, sh_bind, bind, run. rewrite H. reflexivity.
Qed.

Lemma launched_app a b : launched (a ++ b) = launched a ++ launched b.
Proof. apply omap_app. Qed.

Lemma elem_of_launched c t : c ∈ launched t ↔ EStart c ∈ t.
Proof.
  unfold launched. rewrite list_elem_of_omap. split.
  - intros (e & He & Hc). destruct e; try discriminate. by injection Hc as ->.
  - intros H. by exists (EStart c).
Qed.

Section Launches.
Context {W : Type} (S : system W) (A : command → Prop).

Lemma launches_nil : launches_only A [].
Proof. intros c Hc. by apply elem_of_nil in Hc. Qed.

Lemma launches_app a b :
  launches_only A a → launches_only A b → launches_only A (a ++ b).
Proof.
  intros Ha Hb c. rewrite launched_app, elem_of_app. intros [?|?]; auto.
Qed.

Lemma launches_printf fmt : holds (launches_only A) (printf fmt : sh W unit).
Proof. intros w c Hc. by apply elem_of_nil in Hc. Qed.

Lemma launches_read : holds (launches_only A) (read S).
Proof.
  intros w c. unfold read. destruct (read_line S w) as [l w1].
  intros Hc. by apply elem_of_nil in Hc.
Qed.

Lemma launches_run c : A c → holds (launches_only A) (run S c).
Proof.
  intros Hc w c'. unfold run. destruct (exec S c w) as [[st out] w1].
  intros Hin. apply list_elem_of_singleton in Hin. by subst.
Qed.

Lemma launches_run_from f c :
  A c → holds (launches_only A) (run_from S f c).
Proof.
  intros Hc w. unfold run_from. destruct (readable S f w).
  - by apply launches_run.
  - apply launches_nil.
Qed.

Lemma launches_capture c : A c → holds (launches_only A) (capture S c).
Proof.
  intros Hc w c'. unfold capture. destruct (exec S c w) as [[st out] w1].
  intros Hin. apply list_elem_of_singleton in Hin. by subst.
Qed.

Lemma launches_capture_wc_l c :
  A (Pipe c (Cmd ["wc"; "-l"] [])) →
  holds (launches_only A) (capture_wc_l S c).
Proof.
  intros Hc w c'. unfold capture_wc_l.
  destruct (exec S c w) as [[st out] w1].
  intros Hin. apply list_elem_of_singleton in Hin. by subst.
Qed.
End Launches.

Ltac launches_step :=
  match goal with
  | |- holds _ (_ ≫= _) =>
      apply holds_bind; [apply launches_app| |intros ?]
  | |- holds _ (mret _) => apply holds_ret; apply launches_nil
  | |- holds _ (exit _) => apply holds_exit; apply launches_nil
  | |- holds _ (test_e _ _) => apply holds_test_e; apply launches_nil
  | |- holds _ (expand _ _) => apply holds_expand; apply launches_nil
  | |- holds _ (expand_all _ _) => apply holds_expand_all; apply launches_nil
  | |- holds _ (printf _) => apply launches_printf
  | |- holds _ (read _) => apply launches_read
  | |- holds _ (run _ _) => apply launches_run
  | |- holds _ (run_from _ _ _) => apply launches_run_from
  | |- holds _ (capture _ _) => apply launches_capture
  | |- holds _ (capture_wc_l _ _) => apply launches_capture_wc_l
  | |- holds _ (if ?b then _ else _) => destruct b
  | |- holds _ (let _ := _ in _) => cbv zeta
  end.


Section ExitCodes.
Context {W : Type} (S : system W).

Lemma exits_ret {A} (a : A) : exits_only_1 (mret a : sh W A).
Proof. by intros w. Qed.
Lemma exits_exit_1 {A} : exits_only_1 (exit 1 : sh W A).
Proof. by intros w. Qed.
Lemma exits_printf fmt : exits_only_1 (printf fmt : sh W unit).
Proof. by intros w. Qed.
Lemma exits_test_e f : exits_only_1 (test_e S f).
Proof. by intros w. Qed.
Lemma exits_expand s : exits_only_1 (expand S s).
Proof. by intros w. Qed.
Lemma exits_expand_all l : exits_only_1 (expand_all S l).
Proof. by intros w. Qed.
Lemma exits_run c : exits_only_1 (run S c).
Proof.
  intros w. unfold run, outcome_of. by destruct (exec S c w) as [[??]?].
Qed.
Lemma exits_run_from f c : exits_only_1 (run_from S f c).
Proof.
  intros w. unfold run_from. destruct (readable S f w); [|done].
  apply exits_run.
Qed.
Lemma exits_capture c : exits_only_1 (capture S c).
Proof.
  intros w. unfold capture, outcome_of. by destruct (exec S c w) as [[??]?].
Qed.
Lemma exits_capture_wc_l c : exits_only_1 (capture_wc_l S c).
Proof.
  intros w. unfold capture_wc_l, outcome_of.
  by destruct (exec S c w) as [[??]?].
Qed.
Lemma exits_read : exits_only_1 (read S).
Proof.
  intros w. unfold read, outcome_of. by destruct (read_line S w) as [??].
Qed.
Lemma exits_bind {A B} (m : sh W A) (k : A → sh W B) :
  exits_only_1 m → (∀ a, exits_only_1 (k a)) → exits_only_1 (m ≫= k).
Proof.
  intros Hm Hk w. unfold mbind, sh_bind, bind, outcome_of.
  specialize (Hm w). unfold outcome_of in Hm.
  destruct (m w) as [[[a|c] w1] t1]; [|exact Hm].
  specialize (Hk a w1). unfold outcome_of in Hk.
  by destruct (k a w1) as [[o w2] t2].
Qed.
End ExitCodes.

Ltac exits_step :=
  match goal with
  | |- exits_only_1 (_ ≫= _) => apply exits_bind; [|intros ?]
  | |- exits_only_1 (mret _) => apply exits_ret
  | |- exits_only_1 (exit 1) => apply exits_exit_1
  | |- exits_only_1 (printf _) => apply exits_printf
  | |- exits_only_1 (test_e _ _) => apply exits_test_e
  | |- exits_only_1 (expand _ _) => apply exits_expand
  | |- exits_only_1 (expand_all _ _) => apply exits_expand_all
  | |- exits_only_1 (run _ _) => apply exits_run
  | |- exits_only_1 (run_from _ _ _) => apply exits_run_from
  | |- exits_only_1 (capture _ _) => apply exits_capture
  | |- exits_only_1 (capture_wc_l _ _) => apply exits_capture_wc_l
  | |- exits_only_1 (read _) => apply exits_read
  | |- exits_only_1 (if ?b then _ else _) => destruct b
  | |- exits_only_1 (let _ := _ in _) => cbv zeta
  end.


Lemma fields_aux_ifs_free s : ifs_free s = true → fields_aux s = (s, []).
Proof.
  induction s as [|c s IH]; [done|]. cbn [ifs_free fields_aux].
  intros [Hc Hs]%andb_true_iff. rewrite (IH Hs).
  apply negb_true_iff in Hc. by rewrite Hc.
Qed.

Lemma fields_word s : is_word s = true → fields s = [s].
Proof.
  intros H. unfold fields. destruct s as [|c s]; [done|].
  by rewrite (fields_aux_ifs_free _ H).
Qed.

Lemma ifs_free_app a b :
  ifs_free (a +:+ b) = ifs_free a && ifs_free b.
Proof.
  induction a as [|c a IH]; [done|].
  change (String c a +:+ b) with (String c (a +:+ b)).
  cbn [ifs_free]. by rewrite IH, andb_assoc.
Qed.

Lemma fields_aux_app_sep a z fz :
  fields_aux z = (EmptyString, fz) →
  fields_aux (a +:+ z) = ((fields_aux a).1, (fields_aux a).2 ++ fz).
Proof.
  intros Hz. induction a as [|c a IH].
  { change (EmptyString +:+ z) with z. by rewrite Hz. }
  change (String c a +:+ z) with (String c (a +:+ z)).
  cbn [fields_aux]. rewrite IH.
  destruct (fields_aux a) as [w ws]. cbn [fst snd].
  destruct (is_ifs c); [|reflexivity]. by destruct w.
Qed.

(** Splitting at a blank: the fields on its left, then those on its
    right. *)
Lemma fields_app_sep a c b :
  is_ifs c = true → fields (a +:+ String c b) = fields a ++ fields b.
Proof.
  intros Hc. unfold fields.
  rewrite (fields_aux_app_sep a (String c b) (fields b)).
  - destruct (fields_aux a) as [w ws]. cbn [fst snd]. by destruct w.
  - cbn [fields_aux]. rewrite Hc. unfold fields.
    by destruct (fields_aux b) as [w ws].
Qed.

Lemma fields_aux_words s :
  ifs_free (fields_aux s).1 = true
  ∧ Forall (λ f, is_word f = true) (fields_aux s).2.
Proof.
  induction s as [|c s [IH1 IH2]]; [by split|].
  cbn [fields_aux]. destruct (fields_aux s) as [w ws]. cbn [fst snd] in *.
  destruct (is_ifs c) eqn:Hc; cbn [fst snd].
  - split; [done|]. destruct w; [done|]. by constructor.
  - split; [|done]. cbn [ifs_free]. by rewrite Hc, IH1.
Qed.

(** Every field is a word. *)
Lemma fields_words s : Forall (λ f, is_word f = true) (fields s).
Proof.
  unfold fields. destruct (fields_aux_words s) as [H1 H2].
  destruct (fields_aux s) as [w ws]. cbn [fst snd] in *.
  destruct w; [done|]. by constructor.
Qed.

End ShellTracesFacts.

(** ** More about the [idaes-docker] script *)

Module DockerExtra.
Import Shell Docker ShellFacts ShellTraces ShellTracesFacts DockerPaths.

#[local] Arguments docker_images_q : simpl never.
#[local] Arguments docker_save : simpl never.
#[local] Arguments docker_build : simpl never.
#[local] Arguments detect_version : simpl never.
#[local] Arguments words : simpl never.
#[local] Arguments chomp : simpl never.
#[local] Arguments user_tags : simpl never.
#[local] Arguments download : simpl never.
#[local] Arguments wget_probe : simpl never.
#[local] Arguments curl_probe : simpl never.
#[local] Arguments docker_load : simpl never.
#[local] Arguments docker_run_tests : simpl never.
#[local] Arguments docker_run_notebook : simpl never.
#[local] Arguments image_query : simpl never.
#[local] Arguments image_query_pipe : simpl never.

(** [install_image] without a download tool: when neither [wget -h] nor
    [curl -h] exits with status 0, the function prints that it could
    not find them and leaves with [exit 1]; nothing is downloaded and
    nothing is loaded. *)
Theorem install_image_no_tool {W} (S : system W) (w w1 w2 : W)
    (s1 s2 : Z) (o1 o2 : string) :
  exec S wget_probe w = (s1, o1, w1) → s1 ≠ 0 →
  exec S curl_probe w1 = (s2, o2, w2) → s2 ≠ 0 →
  install_image S w
  = (Exit 1, w2,
     [ EStart wget_probe; EFinish wget_probe s1;
       EStart curl_probe; EFinish curl_probe s2;
       EPrintf "Could not find 'curl' or 'wget' command. Abort.\n" ]).
Proof.
  intros H1 Hs1 H2 Hs2. unfold install_image. cbv zeta.
  unfold mbind, sh_bind, bind, run. rewrite H1.
  rewrite (bool_decide_eq_false_2 _ Hs1). rewrite H2.
  rewrite (bool_decide_eq_false_2 _ Hs2). reflexivity.
Qed.

Lemma install_image_no_tool_witness :
  install_image Lab.no_tools 0%nat
  = (Exit 1, 2%nat,
     [ EStart wget_probe; EFinish wget_probe 127;
       EStart curl_probe; EFinish curl_probe 127;
       EPrintf "Could not find 'curl' or 'wget' command. Abort.\n" ]).
Proof.
  apply (install_image_no_tool Lab.no_tools 0%nat 1%nat 2%nat 127 127 "" "");
    (reflexivity || discriminate).
Defined.




Lemma install_image_launches {W} (S : system W) (A : command → Prop) :
  (∀ c, c ∈ install_commands → A c) →
  holds (launches_only A) (install_image S).
Proof.
  intros HA w c Hc. apply HA. apply elem_of_launched in Hc. revert Hc.
  unfold install_image, trace_of, install_commands. cbv zeta.
  unfold mbind, mret, sh_bind, sh_ret, bind, ret, run_from, run, printf,
    exit.
  destruct (exec S wget_probe w) as [[s1 o1] w1].
  case_bool_decide.
  - cbn. destruct (exec S (download "wget") w1) as [[s2 o2] w2].
    case_bool_decide; cbn.
    + intros Hin. in_trace Hin; try contradiction; try discriminate;
        injection Hin as ->; rewrite !elem_of_cons; auto 10.
    + destruct (readable S install_image_filenm w2);
        [destruct (exec S docker_load w2) as [[s3 o3] w3]|]; cbn;
        intros Hin; in_trace Hin; try contradiction; try discriminate;
        injection Hin as ->; rewrite !elem_of_cons; auto 10.
  - cbn. destruct (exec S curl_probe w1) as [[s1' o1'] w1'].
    case_bool_decide; cbn.
    + change ("curl -o " +:+ install_image_filenm)
        with "curl -o idaes-pse-docker-latest.tgz".
      destruct (exec S (download "curl -o idaes-pse-docker-latest.tgz") w1')
        as [[s2 o2] w2].
      case_bool_decide; cbn.
      * intros Hin. in_trace Hin; try contradiction; try discriminate;
          injection Hin as ->; rewrite !elem_of_cons; auto 10.
      * destruct (readable S install_image_filenm w2);
          [destruct (exec S docker_load w2) as [[s3 o3] w3]|]; cbn;
          intros Hin; in_trace Hin; try contradiction; try discriminate;
          injection Hin as ->; rewrite !elem_of_cons; auto 10.
    + intros Hin. in_trace Hin; try contradiction; try discriminate;
        injection Hin as ->; rewrite !elem_of_cons; auto 10.
Qed.

(** How [install_image] can end: with [exit 1], or by returning after a
    download that finished with status 0. *)
Lemma install_image_cases {W} (S : system W) (w : W) :
  outcome_of (install_image S w) = Exit 1
  ∨ (outcome_of (install_image S w) = Ret tt
     ∧ ∃ g, EFinish (download g) 0 ∈ trace_of (install_image S w)).
Proof.
  unfold install_image, trace_of, outcome_of. cbv zeta.
  unfold mbind, mret, sh_bind, sh_ret, bind, ret, run_from, run, printf,
    exit.
  destruct (exec S wget_probe w) as [[s1 o1] w1].
  case_bool_decide.
  - cbn. destruct (exec S (download "wget") w1) as [[s2 o2] w2].
    case_bool_decide as Hs; cbn; [by left|].
    assert (s2 = 0) as -> by (destruct (decide (s2 = 0)); [done|tauto]).
    right.
    destruct (readable S install_image_filenm w2);
      [destruct (exec S docker_load w2) as [[s3 o3] w3]|]; cbn;
      (split; [done|]); exists "wget"; rewrite !elem_of_cons; auto 10.
  - cbn. destruct (exec S curl_probe w1) as [[s1' o1'] w1'].
    case_bool_decide; cbn; [|by left].
    destruct (exec S (download ("curl -o " +:+ install_image_filenm)) w1')
      as [[s2 o2] w2].
    case_bool_decide as Hs; cbn; [by left|].
    assert (s2 = 0) as -> by (destruct (decide (s2 = 0)); [done|tauto]).
    right.
    destruct (readable S install_image_filenm w2);
      [destruct (exec S docker_load w2) as [[s3 o3] w3]|]; cbn;
      (split; [done|]); exists ("curl -o " +:+ install_image_filenm);
      rewrite !elem_of_cons; auto 10.
Qed.

Lemma check_image_eq {W} (S : system W) (w w1 : W) (s : Z) (out : string) :
  exec S image_query w = (s, out, w1) →
  check_image S w
  = if bool_decide (wc_l out = 0%nat) then
      let '(resp, w2) := read_line S w1 in
      if bool_decide (resp ∈ yes_answers) then
        let '(o, w3, t) := install_image S w2 in (o, w3, asked ++ t)
      else
        (Exit 1, w2,
         asked ++
         [ EPrintf "Command aborted.\n\nFor information on how to install and use\n";
           EPrintf "Docker with the IDAES PSE framework, see the installation guide at:\n";
           EPrintf "    https://idaes-pse.readthedocs.io/en/latest/install.html\n" ])
    else (Ret tt, w1, [EStart image_query_pipe; EFinish image_query_pipe 0]).
Proof.
  intros Hq. unfold check_image.
  unfold mbind at 1. unfold sh_bind, bind at 1. unfold capture_wc_l.
  cbv zeta. fold image_query. rewrite Hq.
  case_bool_decide; [|reflexivity].
  unfold mbind, mret, sh_bind, sh_ret, bind, ret, printf, read,
    install_image_help, exit.
  destruct (read_line S w1) as [resp w2].
  fold yes_answers. case_bool_decide.
  - destruct (install_image S w2) as [[[[]|c] w3] t]; reflexivity.
  - reflexivity.
Qed.

Lemma main_container {W} (S : system W) cmd msg c rest (w : W) :
  (cmd, (msg, c)) ∈ container_commands →
  main S (cmd :: rest) w = with_image S msg c w.
Proof.
  intros Hin. unfold container_commands in Hin. in_trace Hin;
    try contradiction; simplify_eq;
    unfold main, with_image; cbn [head default]; cbv zeta.
  - rewrite (bool_decide_eq_false_2 ("test" = "")) by discriminate.
    rewrite bind_ret_l.
    by rewrite (bool_decide_eq_true_2 ("test" = "test") eq_refl).
  - rewrite (bool_decide_eq_false_2 ("notebook" = "")) by discriminate.
    rewrite bind_ret_l.
    rewrite (bool_decide_eq_false_2 ("notebook" = "test")) by discriminate.
    by rewrite (bool_decide_eq_true_2 ("notebook" = "notebook") eq_refl).
Qed.

Lemma with_image_eq {W} (S : system W) msg c (w : W) :
  with_image S msg c w
  = match check_image S w with
    | (Ret _, w1, t) =>
        let '(st, _, w2) := exec S c w1 in
        (Ret tt, w2, t ++ [EPrintf msg; EStart c; EFinish c st])
    | (Exit code, w1, t) => (Exit code, w1, t)
    end.
Proof.
  unfold with_image. unfold mbind at 1. unfold sh_bind, bind at 1.
  destruct (check_image S w) as [[[[]|code] w1] t]; [|reflexivity].
  unfold mbind, mret, sh_bind, sh_ret, bind, ret, printf, run.
  by destruct (exec S c w1) as [[st out] w2].
Qed.

(** [test] and [notebook] with the image installed: when
    [docker images -q idaes:idaes_pse] prints at least one line,
    [check_image] neither prints nor asks nor reads, and the script goes
    straight on to its one [docker run]. *)
Theorem image_present_no_questions {W} (S : system W) cmd msg c rest
    (w w1 w2 : W) (s st : Z) (out o2 : string) :
  (cmd, (msg, c)) ∈ container_commands →
  exec S image_query w = (s, out, w1) → wc_l out ≠ 0%nat →
  exec S c w1 = (st, o2, w2) →
  check_image S w
  = (Ret tt, w1, [EStart image_query_pipe; EFinish image_query_pipe 0])
  ∧ main S (cmd :: rest) w
    = (Ret tt, w2,
       [ EStart image_query_pipe; EFinish image_query_pipe 0;
         EPrintf msg; EStart c; EFinish c st ]).
Proof.
  intros Hin Hq Hn Hc.
  assert (Hci : check_image S w
    = (Ret tt, w1, [EStart image_query_pipe; EFinish image_query_pipe 0])).
  { rewrite (check_image_eq S w w1 s out Hq).
    by rewrite (bool_decide_eq_false_2 _ Hn). }
  split; [exact Hci|].
  rewrite (main_container S cmd msg c rest w Hin), with_image_eq, Hci, Hc.
  reflexivity.
Qed.

Lemma image_present_no_questions_witness :
  main Lab.installed ["test"] 0%nat
  = (Ret tt, 2%nat,
     [ EStart image_query_pipe; EFinish image_query_pipe 0;
       EPrintf "Running tests in container...\n";
       EStart docker_run_tests; EFinish docker_run_tests 0 ]).
Proof.
  apply (image_present_no_questions Lab.installed "test"
           "Running tests in container...\n" docker_run_tests [] 0%nat 1%nat
           2%nat 0 0 Lab.one_image "").
  - apply list_elem_of_here.
  - reflexivity.
  - discriminate.
  - reflexivity.
Defined.

(** [test] and [notebook] without the image: unless the user answers y,
    Y, yes, Yes or YES, the script prints where to find the installation
    guide and leaves with [exit 1]; it downloads nothing and does not
    run the container. *)
Theorem declined_install_exits {W} (S : system W) cmd msg c rest
    (w w1 w2 : W) (s : Z) (out resp : string) :
  (cmd, (msg, c)) ∈ container_commands →
  exec S image_query w = (s, out, w1) → wc_l out = 0%nat →
  read_line S w1 = (resp, w2) → resp ∉ yes_answers →
  main S (cmd :: rest) w
  = (Exit 1, w2,
     asked ++
     [ EPrintf "Command aborted.\n\nFor information on how to install and use\n";
       EPrintf "Docker with the IDAES PSE framework, see the installation guide at:\n";
       EPrintf "    https://idaes-pse.readthedocs.io/en/latest/install.html\n" ]).
Proof.
  intros Hin Hq Hn Hr Hno.
  rewrite (main_container S cmd msg c rest w Hin), with_image_eq.
  rewrite (check_image_eq S w w1 s out Hq).
  rewrite (bool_decide_eq_true_2 _ Hn), Hr.
  by rewrite (bool_decide_eq_false_2 _ Hno).
Qed.

Lemma declined_install_exits_witness :
  main Lab.says_no ["notebook"] 0%nat
  = (Exit 1, 1%nat,
     asked ++
     [ EPrintf "Command aborted.\n\nFor information on how to install and use\n";
       EPrintf "Docker with the IDAES PSE framework, see the installation guide at:\n";
       EPrintf "    https://idaes-pse.readthedocs.io/en/latest/install.html\n" ]).
Proof.
  apply (declined_install_exits Lab.says_no "notebook"
           "Starting Jupyter...\n" docker_run_notebook
           [] 0%nat 1%nat 1%nat 0 "" "n").
  - apply list_elem_of_further, list_elem_of_here.
  - reflexivity.
  - reflexivity.
  - reflexivity.
  - unfold yes_answers. rewrite !not_elem_of_cons.
    repeat split; try discriminate. apply not_elem_of_nil.
Defined.

(** [test] and [notebook] run their container last, and only after the
    image was listed or a download finished with status 0.  Whether the
    image was loaded is not looked at: once [install_image] returns, the
    container is started, also when [docker load] failed or was not
    started because the archive could not be opened. *)
Theorem container_needs_download {W} (S : system W) cmd msg c rest
    (w w1 : W) (s : Z) (out : string) :
  (cmd, (msg, c)) ∈ container_commands →
  exec S image_query w = (s, out, w1) →
  (EStart c ∈ trace_of (main S (cmd :: rest) w) →
   ∃ t st,
     trace_of (main S (cmd :: rest) w)
     = t ++ [EPrintf msg; EStart c; EFinish c st]
     ∧ (wc_l out ≠ 0%nat ∨ ∃ g, EFinish (download g) 0 ∈ t))
  ∧ (∀ resp w2,
       wc_l out = 0%nat → read_line S w1 = (resp, w2) →
       resp ∈ yes_answers →
       outcome_of (install_image S w2) = Ret tt →
       EStart c ∈ trace_of (main S (cmd :: rest) w)).
Proof.
  intros Hin Hq.
  assert (Hc : c = docker_run_tests ∨ c = docker_run_notebook).
  { unfold container_commands in Hin.
    in_trace Hin; try contradiction; simplify_eq; auto. }
  rewrite (main_container S cmd msg c rest w Hin), with_image_eq.
  rewrite (check_image_eq S w w1 s out Hq).
  split.
  - case_bool_decide as Hn.
    + destruct (read_line S w1) as [resp w2].
      case_bool_decide as Hyes.
      * pose proof (install_image_launches S (.∈ install_commands)
                      (λ _ H, H) w2) as HL.
        destruct (install_image_cases S w2) as [Hex|[Hex [g Hg]]];
          unfold outcome_of, trace_of in Hex, HL;
          try unfold trace_of in Hg;
          destruct (install_image S w2) as [[o w3] t]; simpl in Hex, HL;
          subst o.
        -- unfold trace_of. cbn [snd]. intros Hs. exfalso.
           apply elem_of_app in Hs as [Hs|Hs].
           ++ unfold asked in Hs. in_trace Hs; try contradiction;
                destruct Hc; subst c; discriminate.
           ++ apply elem_of_launched, HL in Hs.
              unfold install_commands in Hs.
              in_trace Hs; try contradiction;
                destruct Hc; subst c; discriminate.
        -- destruct (exec S c w3) as [[st' o'] w'']. intros _.
           unfold trace_of. cbn [snd]. exists (asked ++ t), st'.
           split; [reflexivity|]. right. exists g.
           apply elem_of_app. by right.
      * unfold trace_of. cbn [snd]. intros Hs. exfalso.
        unfold asked in Hs. cbn in Hs. in_trace Hs; try contradiction;
          destruct Hc; subst c; discriminate.
    + destruct (exec S c w1) as [[st' o'] w'']. intros _.
      unfold trace_of. cbn [snd].
      exists [EStart image_query_pipe; EFinish image_query_pipe 0], st'.
      split; [reflexivity|]. by left.
  - intros resp w2 Hn Hr Hyes Hret.
    rewrite (bool_decide_eq_true_2 _ Hn), Hr.
    rewrite (bool_decide_eq_true_2 _ Hyes).
    unfold outcome_of in Hret.
    destruct (install_image S w2) as [[o w3] t]. simpl in Hret. subst o.
    destruct (exec S c w3) as [[st' o'] w'']. unfold trace_of. cbn [snd].
    rewrite !elem_of_app, !elem_of_cons. auto 10.
Qed.

Lemma container_needs_download_witness :
  (EStart docker_run_tests
   ∈ trace_of (main Lab.nothing_to_load ["test"] 0%nat))
  ∧ (EStart docker_load
     ∉ trace_of (main Lab.nothing_to_load ["test"] 0%nat))
  ∧ ∃ t st,
      trace_of (main Lab.load_fails ["test"] 0%nat)
      = t ++ [ EPrintf "Running tests in container...\n";
               EStart docker_run_tests; EFinish docker_run_tests st ]
      ∧ (wc_l "" ≠ 0%nat ∨ ∃ g, EFinish (download g) 0 ∈ t).
Proof.
  split; [|split].
  - apply (proj2 (container_needs_download Lab.nothing_to_load "test"
                    "Running tests in container...\n" docker_run_tests []
                    0%nat 1%nat 0 "" (list_elem_of_here _ _) eq_refl)
             "y" 1%nat eq_refl eq_refl (list_elem_of_here _ _) eq_refl).
  - intros Hin. apply list_elem_of_In in Hin. vm_compute in Hin.
    repeat (destruct Hin as [Hin|Hin]; [discriminate|]). exact Hin.
  - apply (proj1 (container_needs_download Lab.load_fails "test"
                    "Running tests in container...\n" docker_run_tests []
                    0%nat 1%nat 0 "" (list_elem_of_here _ _) eq_refl)).
    vm_compute. do 14 apply list_elem_of_further. apply list_elem_of_here.
Defined.

(** Only [create] looks at the arguments after the command: with any
    other first argument the script does the same with and without
    them. *)
Theorem extra_arguments_ignored {W} (S : system W) (a : string)
    (rest : list string) (w : W) :
  a ≠ "create" → main S (a :: rest) w = main S [a] w.
Proof.
  intros Ha. unfold main. cbn [head default tail]. cbv zeta.
  change (id a) with a.
  destruct (bool_decide (a = "")); [reflexivity|].
  rewrite !bind_ret_l.
  repeat (case_bool_decide; [try reflexivity; try contradiction|]).
  reflexivity.
Qed.

Lemma extra_arguments_ignored_witness :
  main Lab.installed ["test"; "-v"; "--fast"] 0%nat
  = main Lab.installed ["test"] 0%nat.
Proof. apply extra_arguments_ignored. discriminate. Defined.

Ltac run_all S :=
  repeat (match goal with
          | |- context [exec S ?c ?w] =>
              destruct (exec S c w) as [[? ?] ?]
          | |- context [bool_decide ?P] => destruct (bool_decide P)
          | |- context [file_exists S ?f ?w] =>
              destruct (file_exists S f w)
          end; cbn).

Lemma build_image_never_exits {W} (S : system W) (args : list string)
    (w : W) :
  outcome_of (build_image S args w) = Ret tt.
Proof.
  unfold build_image, outcome_of. cbv zeta.
  unfold mbind, mret, sh_bind, sh_ret, bind, ret, capture, run, printf,
    test_e, expand.
  run_all S; reflexivity.
Qed.

Lemma main_create {W} (S : system W) (rest : list string) (w : W) :
  main S ("create" :: rest) w
  = (let '(o, w', t) :=
       build_image S (flat_map (λ a, words S a w) rest) w in
     (o, w', EPrintf "Create new Docker image file\n" :: t)).
Proof.
  unfold main. cbn [head default tail]. cbv zeta.
  rewrite (bool_decide_eq_false_2 ("create" = "")) by discriminate.
  rewrite bind_ret_l.
  rewrite (bool_decide_eq_false_2 ("create" = "test")) by discriminate.
  rewrite (bool_decide_eq_false_2 ("create" = "notebook")) by discriminate.
  rewrite (bool_decide_eq_false_2 ("create" = "update")) by discriminate.
  rewrite (bool_decide_eq_true_2 ("create" = "create") eq_refl).
  unfold mbind, sh_bind, bind, printf, expand_all.
  by destruct (build_image S _ w) as [[o w'] t].
Qed.

(** [create] never leaves through [exit]: no failure of [python],
    [docker build] or [docker save] stops the script or gives it the
    exit code 1. *)
Theorem create_never_exits {W} (S : system W) (args rest : list string)
    (w : W) :
  outcome_of (build_image S args w) = Ret tt
  ∧ exit_code (main S ("create" :: rest) w) = None.
Proof.
  split; [apply build_image_never_exits|].
  unfold exit_code. rewrite main_create.
  pose proof (build_image_never_exits S
                (flat_map (λ a, words S a w) rest) w) as H.
  unfold outcome_of in *.
  destruct (build_image S _ w) as [[o w'] t]. cbn in *. by rewrite H.
Qed.

Lemma check_image_launches {W} (S : system W) :
  holds (launches_only (.∈ user_commands)) (check_image S).
Proof.
  unfold check_image, install_image_help.
  repeat launches_step.
  - unfold user_commands. apply list_elem_of_here.
  - apply install_image_launches. intros c Hc. unfold user_commands.
    apply list_elem_of_further, elem_of_app. by left.
Qed.

Lemma build_image_launches {W} (S : system W) args :
  holds (launches_only build_command) (build_image S args).
Proof. unfold build_image. repeat launches_step; constructor. Qed.

Lemma build_not_user c : build_command c → c ∉ user_commands.
Proof.
  intros Hb Hin. unfold user_commands, install_commands in Hin.
  cbn [app] in Hin. in_trace Hin; try contradiction;
    destruct Hb; discriminate.
Qed.

Lemma usage_launches {W} (A : command → Prop) :
  holds (launches_only A) (usage : sh W unit).
Proof. unfold usage. repeat launches_step. Qed.

Lemma main_launches {W} (S : system W) (args : list string) :
  holds (launches_only
           (if bool_decide (default "" (head args) = "create")
            then build_command else (.∈ user_commands)))
        (main S args).
Proof.
  unfold main. cbv zeta.
  set (arg1 := default "" (head args)). clearbody arg1.
  case_bool_decide as Hc.
  - subst arg1.
    apply holds_bind; [apply launches_app| |intros _].
    { rewrite (bool_decide_eq_false_2 ("create" = "")) by discriminate.
      apply holds_ret, launches_nil. }
    rewrite (bool_decide_eq_false_2 ("create" = "test")) by discriminate.
    rewrite (bool_decide_eq_false_2 ("create" = "notebook")) by discriminate.
    rewrite (bool_decide_eq_false_2 ("create" = "update")) by discriminate.
    repeat launches_step. apply build_image_launches.
  - apply holds_bind; [apply launches_app| |intros _].
    { destruct (bool_decide (arg1 = ""));
        [apply usage_launches|apply holds_ret, launches_nil]. }
    assert (Hu : ∀ c, c ∈ install_commands → c ∈ user_commands).
    { intros c Hin. unfold user_commands.
      apply list_elem_of_further, elem_of_app. by left. }
    repeat (case_bool_decide; [repeat launches_step|]);
      try apply check_image_launches;
      try (apply install_image_launches, Hu);
      try (cbv beta; unfold user_commands;
           rewrite !elem_of_cons, elem_of_app, !elem_of_cons; auto 10);
      try contradiction.
    all: apply usage_launches.
Qed.

(** The two sides of the script do not mix.  With a first argument other
    than [create] the script launches only the image query, the commands
    of [install_image] and the two [docker run] commands, hence no
    version query, no [docker build] and no [docker save]; with [create]
    it launches only those, hence it downloads nothing, loads no image
    and runs no container. *)
Theorem commands_by_purpose {W} (S : system W) (args : list string)
    (w : W) :
  (head args ≠ Some "create" →
   launches_only (.∈ user_commands) (trace_of (main S args w))
   ∧ ∀ c, build_command c → EStart c ∉ trace_of (main S args w))
  ∧ (head args = Some "create" →
     launches_only build_command (trace_of (main S args w))
     ∧ ∀ c, c ∈ user_commands → EStart c ∉ trace_of (main S args w)).
Proof.
  pose proof (main_launches S args w) as Hmain. split.
  - intros Hne. rewrite bool_decide_eq_false_2 in Hmain.
    + split; [exact Hmain|]. intros c Hb Hin.
      apply elem_of_launched, Hmain in Hin. by apply build_not_user in Hb.
    + destruct args as [|a args]; cbn in *; [discriminate|].
      intros ->. by apply Hne.
  - intros Hc. rewrite bool_decide_eq_true_2 in Hmain.
    + split; [exact Hmain|]. intros c Hu Hin.
      apply elem_of_launched, Hmain in Hin. by apply build_not_user in Hin.
    + destruct args as [|a args]; cbn in *; [discriminate|].
      by injection Hc.
Qed.

Lemma commands_by_purpose_witness :
  (∀ c, build_command c →
        EStart c ∉ trace_of (main Lab.load_fails ["update"] 0%nat))
  ∧ (∀ c, c ∈ user_commands →
          EStart c ∉ trace_of (main Lab.build_fails ["create"; "dev"] 0%nat)).
Proof.
  split.
  - apply (proj1 (commands_by_purpose Lab.load_fails ["update"] 0%nat)).
    discriminate.
  - apply (proj2 (commands_by_purpose Lab.build_fails ["create"; "dev"]
                    0%nat)).
    reflexivity.
Defined.

(** [build_image] without archive and without image: after the version
    query and the image query, [docker build . -t ...] is run, the image
    is queried again, and [docker save ... | gzip -c] writes the archive.
    The exit status of [docker build] is not looked at: the save follows
    in any case, with whatever the second query printed. *)
Theorem build_image_builds {W} (S : system W) (args : list string)
    (w w1 w2 w3 w4 w5 : W) (st st2 st3 st4 st5 : Z)
    (out out2 out3 out4 out5 : string) :
  exec S detect_version w = (st, out, w1) →
  let ver := chomp out in
  let imgname := "idaes-pse-docker-" +:+ ver +:+ ".tgz" in
  let vertag := "idaes/idaes_pse:v" +:+ ver in
  file_exists S imgname w1 = false →
  exec S (docker_images_q (words S vertag w1)) w1 = (st2, out2, w2) →
  chomp out2 = "" →
  let build :=
    docker_build (words S (user_tags ("-t " +:+ vertag) args) w2) in
  exec S build w2 = (st3, out3, w3) →
  exec S (docker_images_q (words S vertag w3)) w3 = (st4, out4, w4) →
  let save :=
    docker_save (words S (chomp out4) w4) (words S imgname w4) in
  exec S save w4 = (st5, out5, w5) →
  build_image S args w
  = (Ret tt, w5,
     detected st ver
     ++ [ EStart (docker_images_q (words S vertag w1));
          EFinish (docker_images_q (words S vertag w1)) st2;
          EPrintf "Building image...\n";
          EStart build; EFinish build st3;
          EStart (docker_images_q (words S vertag w3));
          EFinish (docker_images_q (words S vertag w3)) st4;
          EPrintf "Saving image..\n";
          EStart save; EFinish save st5;
          EPrintf ("Done: " +:+ imgname +:+ " \n") ]).
Proof.
  intros Hver ver imgname vertag Hex Hq Hid build Hb Hq2 save Hs.
  subst save build imgname vertag ver. set (v := chomp out) in *.
  unfold build_image.
  unfold mbind, mret, sh_bind, sh_ret, bind, ret, printf, test_e, expand,
    capture, run.
  rewrite Hver. fold v. cbn in *. rewrite Hex. cbn.
  change (IMAGE_REPO +:+ "/" +:+ IMAGE_TAG +:+ ":v" +:+ v)
    with ("idaes/idaes_pse:v" +:+ v).
  rewrite Hq. cbn. rewrite Hid.
  rewrite (bool_decide_eq_true_2 ("" = "") eq_refl). cbn.
  change ("-t " +:+ IMAGE_REPO +:+ "/" +:+ IMAGE_TAG +:+ ":v" +:+ v)
    with ("-t " +:+ "idaes/idaes_pse:v" +:+ v).
  rewrite Hb. cbn. rewrite Hq2. cbn. rewrite Hs. reflexivity.
Qed.

Lemma build_image_builds_witness :
  outcome_of (build_image Lab.build_fails ["dev"] 0%nat) = Ret tt
  ∧ EStart (docker_save [] ["idaes-pse-docker-1.2.0.tgz"])
    ∈ trace_of (build_image Lab.build_fails ["dev"] 0%nat).
Proof.
  rewrite (build_image_builds Lab.build_fails ["dev"] 0%nat 1%nat 2%nat
             3%nat 4%nat 5%nat 0 0 1 0 0 "1.2.0" "" "" "" "");
    try reflexivity.
  split; [reflexivity|].
  unfold trace_of. cbn [snd].
  apply elem_of_app. right.
  do 8 apply list_elem_of_further. apply list_elem_of_here.
Defined.

Lemma user_tags_app tagopt a args :
  user_tags tagopt (a :: args)
  = user_tags (tagopt +:+ " -t idaes/idaes_pse:" +:+ a) args.
Proof. reflexivity. Qed.

Lemma fields_user_tags tagopt args :
  Forall (λ a, is_word a = true) args →
  fields (user_tags tagopt args)
  = fields tagopt
    ++ flat_map (λ a, ["-t"; "idaes/idaes_pse:" +:+ a]) args.
Proof.
  intros Hargs. revert tagopt.
  induction Hargs as [|a args Ha _ IH]; intros tagopt.
  - cbn. by rewrite app_nil_r.
  - rewrite user_tags_app, IH. cbn [flat_map].
    change (" -t idaes/idaes_pse:" +:+ a)
      with (String " " ("-t idaes/idaes_pse:" +:+ a)).
    rewrite (fields_app_sep tagopt " " ("-t idaes/idaes_pse:" +:+ a) eq_refl).
    change ("-t idaes/idaes_pse:" +:+ a)
      with ("-t" +:+ String " " ("idaes/idaes_pse:" +:+ a)).
    rewrite (fields_app_sep "-t" " " _ eq_refl).
    rewrite (fields_word ("idaes/idaes_pse:" +:+ a)).
    + by rewrite <- !app_assoc.
    + destruct a; [done|]. exact Ha.
Qed.

(** The tags of [create], when pathname expansion leaves the words as
    they are.  The arguments after [create] go through an unquoted [$*]:
    [build_image] gets their fields, so that an argument with blanks
    gives several tags and an empty argument none.  [docker build] then
    gets the version tag first and one [-t idaes/idaes_pse:tag] for each
    of them, in order. *)
Theorem create_tags {W} (S : system W) (rest : list string) (w : W) :
  (∀ f w', glob S f w' = [f]) →
  let args' := flat_map fields rest in
  main S ("create" :: rest) w
  = (let '(o, w', t) := build_image S args' w in
     (o, w', EPrintf "Create new Docker image file\n" :: t))
  ∧ Forall (λ a, is_word a = true) args'
  ∧ ∀ ver w', is_word ver = true →
      words S (user_tags ("-t " +:+ "idaes/idaes_pse:v" +:+ ver) args') w'
      = ["-t"; "idaes/idaes_pse:v" +:+ ver]
        ++ flat_map (λ a, ["-t"; "idaes/idaes_pse:" +:+ a]) args'.
Proof.
  intros Hglob args'.
  assert (Hwords : ∀ s w', words S s w' = fields s).
  { intros s w'. unfold words. induction (fields s) as [|f fs IH]; [done|].
    cbn [flat_map]. by rewrite Hglob, IH. }
  assert (Hargs : Forall (λ a, is_word a = true) args').
  { unfold args'. clear. induction rest as [|a rest IH]; [constructor|].
    cbn [flat_map]. apply Forall_app. split; [apply fields_words|exact IH]. }
  split; [|split; [exact Hargs|]].
  - unfold main. cbn [head default tail]. cbv zeta.
    rewrite (bool_decide_eq_false_2 ("create" = "")) by discriminate.
    rewrite bind_ret_l.
    rewrite (bool_decide_eq_false_2 ("create" = "test")) by discriminate.
    rewrite (bool_decide_eq_false_2 ("create" = "notebook")) by discriminate.
    rewrite (bool_decide_eq_false_2 ("create" = "update")) by discriminate.
    rewrite (bool_decide_eq_true_2 ("create" = "create") eq_refl).
    unfold mbind, sh_bind, bind, printf, expand_all.
    replace (flat_map (λ a, words S a w) rest) with args'.
    + by destruct (build_image S args' w) as [[o w'] t].
    + unfold args'. apply flat_map_ext. intros a. by rewrite Hwords.
  - intros ver w' Hver. rewrite Hwords, (fields_user_tags _ _ Hargs).
    f_equal.
    change ("-t " +:+ "idaes/idaes_pse:v" +:+ ver)
      with ("-t" +:+ String " " ("idaes/idaes_pse:v" +:+ ver)).
    rewrite (fields_app_sep "-t" " " _ eq_refl).
    rewrite (fields_word ("idaes/idaes_pse:v" +:+ ver)); [done|].
    destruct ver; [done|]. exact Hver.
Qed.

Lemma create_tags_witness :
  words Sim.image_present
    (user_tags ("-t " +:+ "idaes/idaes_pse:v" +:+ "1.2.0")
       (flat_map fields ["latest  rc1"; ""; "dev"])) 0%nat
  = [ "-t"; "idaes/idaes_pse:v1.2.0"; "-t"; "idaes/idaes_pse:latest";
      "-t"; "idaes/idaes_pse:rc1"; "-t"; "idaes/idaes_pse:dev" ].
Proof.
  apply (proj2 (proj2 (create_tags Sim.image_present
                         ["latest  rc1"; ""; "dev"] 0%nat
                         (λ _ _, eq_refl))) "1.2.0" 0%nat eq_refl).
Defined.

(** The script has one exit code of its own: in every run it either
    runs to its end or leaves through [exit 1]. *)
Theorem exit_code_is_1 {W} (S : system W) (args : list string) (w : W) :
  exit_code (main S args w) = None ∨ exit_code (main S args w) = Some 1.
Proof.
  assert (H : exits_only_1 (main S args)).
  { unfold main, check_image, install_image, install_image_help,
      build_image, usage.
    repeat exits_step. }
  specialize (H w). unfold exit_code.
  destruct (outcome_of (main S args w)); [by left|right; by subst].
Qed.

End DockerExtra.

(** ** More about the build of the plug-in *)

Module MakeExtra.
Import Make MakeSpec MakeGoals.
#[local] Open Scope nat_scope.

(** Without [cubic_roots.c], and without a built-in rule that could make
    it, [make] stops with "No rule to make target cubic_roots.c" before
    it runs anything, also when [cubic_roots.o] or [cubic_roots.so] are
    there. *)
Theorem make_without_source {W} (sys : system W) env (w : W) :
  settled env = true →
  explicit sys ("ALL" :: "cubic_roots.c" :: makefiles) w = true →
  mtime sys "cubic_roots.c" w = None →
  make sys env w = Run (Some (NoRule "cubic_roots.c")) w [].
Proof.
  intros Hs Hx Hc. destruct (explicit_build sys w Hx) as (Ha & Hb & Hm).
  unfold make. rewrite (read_variables_eq env Hs).
  replace (default_goal rules) with (Some "ALL") by reflexivity.
  unfold run_goal. rewrite Hm.
  replace (S (length rules)) with 5 by reflexivity.
  rewrite update_S. cbn [existsb].
  replace (rule_for "ALL" rules) with
    (Some (Rule "ALL" ["cubic_roots.so"] [])) by reflexivity.
  cbn [prereqs recipe foldl result world log fst snd].
  rewrite Ha, andb_false_r. cbv zeta.
  rewrite update_S. cbn [existsb].
  replace (rule_for "cubic_roots.so" rules) with
    (Some (Rule "cubic_roots.so" ["cubic_roots.o"]
      [ [Ref "CC"; Lit " "; Ref "LDFLAGS";
         Lit " cubic_roots.o -o cubic_roots.so"] ])) by reflexivity.
  cbn [prereqs recipe foldl result world log fst snd andb negb].
  rewrite andb_false_r. cbv zeta.
  rewrite update_S. cbn [existsb].
  replace (rule_for "cubic_roots.o" rules) with
    (Some (Rule "cubic_roots.o" ["cubic_roots.c"]
      [ [Ref "CC"; Lit " -c "; Ref "CFLAGS";
         Lit " -fPIC cubic_roots.c -o cubic_roots.o"] ])) by reflexivity.
  cbn [prereqs recipe foldl result world log fst snd andb negb].
  rewrite andb_false_r. cbv zeta.
  rewrite (update_source sys env (vars env) 1 w Hb), Hc. reflexivity.
Qed.

Lemma make_without_source_witness :
  make Sim.toolchain Sim.build_env Lab.no_source
  = Run (Some (NoRule "cubic_roots.c")) Lab.no_source [].
Proof.
  apply (make_without_source Sim.toolchain Sim.build_env Lab.no_source
           eq_refl eq_refl eq_refl).
Defined.







End MakeExtra.

(** ** The Makefile of the documentation: its recipes and runs *)

Module SphinxSpec.
Import Make Sphinx.
#[local] Open Scope nat_scope.

Lemma append_assoc (a b c : string) : (a +:+ b) +:+ c = a +:+ (b +:+ c).
Proof.
  induction a as [|x a IH]; [done|].
  change (String x ((a +:+ b) +:+ c) = String x (a +:+ (b +:+ c))).
  by rewrite IH.
Qed.

Lemma table_settings env b o :
  plain env = true → as_given b = true → as_given o = true →
  table env (settings b o) = Some (overridden (settings b o)).
Proof.
  intros Hp Hb Ho. unfold table, settings. rewrite Hp.
  cbn [forallb andb]. unfold override_ok. cbn [fst snd]. rewrite Hb, Ho.
  reflexivity.
Qed.

Lemma table_overridden env ov :
  plain env = true → forallb override_ok ov = true →
  table env ov = Some (overridden ov).
Proof. intros Hp Ho. unfold table. by rewrite Hp, Ho. Qed.

Lemma strict_commands cmds : (strict cmds).*2 = cmds.
Proof.
  unfold strict. induction cmds as [|c cmds IH]; [done|].
  cbn. by rewrite IH.
Qed.

Lemma strict_intro (cs : list (bool * string)) :
  forallb (λ c : bool * string, negb c.1) cs = true → cs = strict (cs.*2).
Proof.
  induction cs as [|[[] c] cs IH]; [done..|]. cbn. intros H.
  unfold strict in *. cbn. by rewrite <- IH.
Qed.

Lemma commands_of_strict env ov t cmds :
  recipe_of env ov t = Some (strict cmds) → commands_of env ov t = Some cmds.
Proof. unfold commands_of. intros ->. cbn. by rewrite strict_commands. Qed.

Ltac expand_lines Ht :=
  unfold recipe_of; rewrite Ht; cbn -[commands];
  rewrite ?MakeSpec.append_empty_r, ?append_assoc; reflexivity.

Section Recipes.
Variable env : string → option string.
Variables b o : string.
Hypothesis table_bo :
  table env (settings b o) = Some (overridden (settings b o)).

Lemma builder_recipe t bl d :
  (t, (bl, d)) ∈ builders →
  ∃ rest,
  recipe_of env (settings b o) t
  = Some (strict (("mkdir -p " +:+ b +:+ "/" +:+ d)
                  :: ("sphinx-build -b " +:+ bl +:+ " -d " +:+ b
                      +:+ "/doctrees " +:+ o +:+ " . " +:+ b +:+ "/" +:+ d)
                  :: rest)).
Proof.
  intros Hin.
  cut (∃ cs, recipe_of env (settings b o) t
             = Some ((false, "mkdir -p " +:+ b +:+ "/" +:+ d)
                     :: (false, "sphinx-build -b " +:+ bl +:+ " -d " +:+ b
                                +:+ "/doctrees " +:+ o +:+ " . " +:+ b
                                +:+ "/" +:+ d)
                     :: cs)
             ∧ forallb (λ c : bool * string, negb c.1) cs = true).
  { intros (cs & -> & Hcs). exists (cs.*2).
    exact (f_equal (λ l, Some (_ :: _ :: l)) (strict_intro cs Hcs)). }
  unfold builders in Hin.
  rewrite ?elem_of_cons, ?elem_of_nil in Hin.
  repeat match type of Hin with _ ∨ _ => destruct Hin as [Hin|Hin] end;
    try contradiction; simplify_eq;
    (eexists; split; [expand_lines table_bo|reflexivity]).
Qed.

Lemma recipe_doctest :
  recipe_of env (settings b o) "doctest" = Some (strict (doctest_commands b)).
Proof. expand_lines table_bo. Qed.

Lemma recipe_apidoc :
  recipe_of env (settings b o) "apidoc" = Some (strict apidoc_commands).
Proof. expand_lines table_bo. Qed.

Lemma recipe_html :
  recipe_of env (settings b o) "html" = Some (strict (html_commands b o)).
Proof. unfold html_commands, sphinx_html. expand_lines table_bo. Qed.

Lemma recipe_clean :
  recipe_of env (settings b o) "clean" = Some (strict clean_commands).
Proof. expand_lines table_bo. Qed.

Lemma recipe_allclean :
  recipe_of env (settings b o) "allclean" = Some (strict [allclean_command b]).
Proof. unfold allclean_command. expand_lines table_bo. Qed.
End Recipes.

Lemma sphinx_html_not_apidoc b o : sphinx_html b o ∉ apidoc_commands.
Proof.
  unfold apidoc_commands. rewrite !not_elem_of_cons.
  repeat split; try discriminate. apply not_elem_of_nil.
Qed.

Lemma recipe_of_rule env ov t cs :
  recipe_of env ov t = Some cs →
  ∃ vs r ls, table env ov = Some vs ∧ rule_for t doc_rules = Some r
             ∧ mapM (expand env vs) (recipe r) = Some ls
             ∧ cs = commands ls.
Proof.
  unfold recipe_of. destruct (table env ov) as [vs|]; [|discriminate].
  cbn [mbind option_bind].
  destruct (rule_for t doc_rules) as [r|]; [|discriminate].
  cbn [mbind option_bind].
  destruct (mapM (expand env vs) (recipe r)) as [ls|] eqn:Hm; [|discriminate].
  cbn [mbind option_bind]. intros [= <-]. by exists vs, r, ls.
Qed.

Section Engine.
Context {W : Type} (sys : system W) (env : string → option string).
Variable vs : variables.
Variable rs : list rule.
Variable ph : list string.

Lemma run_strict_log t cmds (w : W) :
  ∃ n, log (run_commands sys t (strict cmds) w) = take n cmds
       ∧ (result (run_commands sys t (strict cmds) w) = None
          → n = length cmds)
       ∧ (n ≤ length cmds)%nat.
Proof.
  revert w. induction cmds as [|cmd cmds IH]; intros w.
  - exists 0%nat. by cbn.
  - unfold strict. cbn [fmap list_fmap run_commands].
    destruct (shell sys cmd w) as [[] w1]; cbn [orb].
    + destruct (IH w1) as (n & Hl & Hr & Hn). exists (S n).
      cbn [log result take length]. unfold strict in Hl, Hr. rewrite Hl.
      split; [done|]. split; [|lia]. intros H. f_equal. by apply Hr.
    + exists 1%nat. cbn. split; [done|]. split; [done|lia].
Qed.

(** A phony target without prerequisites: its recipe is run. *)
Lemma update_leaf fuel t r ls (w : W) :
  rule_for t rs = Some r → prereqs r = [] → is_phony ph t = true →
  mapM (expand env vs) (recipe r) = Some ls →
  update sys env vs rs ph (S fuel) t [] w
  = (run_commands sys t (commands ls) w, [t]).
Proof.
  intros Hr Hp Hph Hm. rewrite MakeSpec.update_S. cbn [existsb].
  rewrite Hr, Hp, Hph.
  cbn [negb andb foldl fst snd result world log app]. cbv zeta.
  unfold out_of_date. rewrite Hph. cbn [orb].
  unfold run_recipe. rewrite Hm.
  by destruct (run_commands sys t (commands ls) w).
Qed.

(** A phony target whose one prerequisite is such a leaf. *)
Lemma update_over_leaf fuel t r d rd ls dls (w : W) :
  rule_for t rs = Some r → prereqs r = [d] → is_phony ph t = true →
  mapM (expand env vs) (recipe r) = Some ls →
  rule_for d rs = Some rd → prereqs rd = [] → is_phony ph d = true →
  mapM (expand env vs) (recipe rd) = Some dls →
  (update sys env vs rs ph (S (S fuel)) t [] w).1
  = let r1 := run_commands sys d (commands dls) w in
    match result r1 with
    | Some _ => r1
    | None =>
        let r2 := run_commands sys t (commands ls) (world r1) in
        Run (result r2) (world r2) (log r1 ++ log r2)
    end.
Proof.
  intros Hr Hp Hph Hm Hrd Hpd Hphd Hmd.
  rewrite MakeSpec.update_S. cbn [existsb]. rewrite Hr, Hp, Hph.
  cbn [negb andb foldl fst snd result world log app]. cbv zeta.
  rewrite (update_leaf fuel d rd dls w Hrd Hpd Hphd Hmd).
  cbn [fst snd].
  destruct (run_commands sys d (commands dls) w) as [[e|] w1 l1];
    cbn [result world log]; [reflexivity|].
  unfold out_of_date. rewrite Hph. cbn [orb fst].
  unfold run_recipe. by rewrite Hm.
Qed.
End Engine.

Lemma explicit_makefile {W} (sys : system W) (w : W) :
  explicit sys doc_makefiles w = true →
  existsb (λ m, builtin sys m w) doc_makefiles = false.
Proof.
  unfold explicit, doc_makefiles. cbn.
  by destruct (builtin sys "Makefile" w).
Qed.

Lemma make_docs_goal {W} (sys : system W) env ov vs g (w : W) :
  table env ov = Some vs → is_goal g = true →
  explicit sys doc_makefiles w = true →
  make_docs sys env ov (Some g) w
  = (update sys env vs doc_rules doc_phony (S (length doc_rules)) g [] w).1.
Proof.
  intros Ht Hg He. unfold make_docs, run_goal.
  by rewrite Ht, Hg, (explicit_makefile sys w He).
Qed.

Lemma make_docs_leaf {W} (sys : system W) env ov t cs (w : W) :
  explicit sys doc_makefiles w = true →
  recipe_of env ov t = Some cs →
  is_goal t = true →
  (∀ r, rule_for t doc_rules = Some r → prereqs r = []) →
  is_phony doc_phony t = true →
  make_docs sys env ov (Some t) w = run_commands sys t cs w.
Proof.
  intros He Hc Hg Hp Hph.
  destruct (recipe_of_rule _ _ _ _ Hc) as (vs & r & ls & Ht & Hr & Hm & ->).
  rewrite (make_docs_goal sys env ov vs t w Ht Hg He).
  by rewrite (update_leaf sys env vs doc_rules doc_phony _ t r ls w
                Hr (Hp r Hr) Hph Hm).
Qed.

Lemma make_docs_over_leaf {W} (sys : system W) env ov t d cs dcs (w : W) :
  explicit sys doc_makefiles w = true →
  recipe_of env ov t = Some cs →
  recipe_of env ov d = Some dcs →
  is_goal t = true →
  (∀ r, rule_for t doc_rules = Some r → prereqs r = [d]) →
  (∀ r, rule_for d doc_rules = Some r → prereqs r = []) →
  is_phony doc_phony t = true → is_phony doc_phony d = true →
  make_docs sys env ov (Some t) w
  = let r1 := run_commands sys d dcs w in
    match result r1 with
    | Some _ => r1
    | None =>
        let r2 := run_commands sys t cs (world r1) in
        Run (result r2) (world r2) (log r1 ++ log r2)
    end.
Proof.
  intros He Hc Hdc Hg Hp Hpd Hph Hphd.
  destruct (recipe_of_rule _ _ _ _ Hc) as (vs & r & ls & Ht & Hr & Hm & ->).
  destruct (recipe_of_rule _ _ _ _ Hdc)
    as (vs' & rd & dls & Ht' & Hrd & Hmd & ->).
  rewrite Ht in Ht'. injection Ht' as <-.
  rewrite (make_docs_goal sys env ov vs t w Ht Hg He).
  replace (S (length doc_rules)) with (S (S (pred (length doc_rules))))
    by reflexivity.
  exact (update_over_leaf sys env vs doc_rules doc_phony _ t r d rd ls dls w
           Hr (Hp r Hr) Hph Hm Hrd (Hpd rd Hrd) Hphd Hmd).
Qed.

Ltac by_rule := intros ?; vm_compute; by intros [= <-].





Lemma help_recipe env ov :
  table env ov = Some (overridden ov) →
  ∃ cmds, recipe_of env ov "help" = Some (strict cmds)
          ∧ Forall (λ c, ∃ s, c = "echo " +:+ s) cmds.
Proof.
  intros Ht. eexists. split.
  - unfold recipe_of. rewrite Ht. cbn -[commands overridden].
    rewrite ?MakeSpec.append_empty_r.
    match goal with
    | |- Some ?cs = _ =>
        exact (f_equal Some (strict_intro cs eq_refl))
    end.
  - vm_compute.
    repeat (apply Forall_cons; split; [eexists; reflexivity|]).
    apply Forall_nil_2.
Qed.

(** Without a goal, [make] makes [help], the target of the first rule,
    and every command of it is an [echo], whatever variables are given
    on the command line, as long as they are variables the model
    follows. *)
Theorem make_default_is_help {W} (sys : system W) env ov (w : W) :
  plain env = true → forallb override_ok ov = true →
  explicit sys doc_makefiles w = true →
  ∃ cmds,
    commands_of env ov "help" = Some cmds
    ∧ Forall (λ c, ∃ s, c = "echo " +:+ s) cmds
    ∧ make_docs sys env ov None w = run_commands sys "help" (strict cmds) w
    ∧ Forall (λ c, ∃ s, c = "echo " +:+ s)
        (log (make_docs sys env ov None w)).
Proof.
  intros Hp Ho He.
  pose proof (table_overridden env ov Hp Ho) as Ht.
  destruct (help_recipe env ov Ht) as (cmds & Hc & Hall).
  exists cmds. split; [by apply commands_of_strict|]. split; [done|].
  assert (Hm : make_docs sys env ov None w
               = run_commands sys "help" (strict cmds) w).
  { change (make_docs sys env ov None w)
      with (match table env ov with
            | None => Run (Some Unfollowed) w []
            | Some vs =>
                run_goal sys env vs doc_rules doc_phony doc_makefiles
                  "help" w
            end).
    rewrite <- (make_docs_leaf sys env ov "help" (strict cmds) w He Hc);
      [|done|by_rule|done].
    unfold make_docs. by rewrite Ht. }
  split; [done|]. rewrite Hm.
  destruct (run_strict_log sys "help" cmds w) as (n & -> & _).
  by apply Forall_take.
Qed.

Lemma make_default_is_help_witness :
  ∃ cmds,
    commands_of (λ _, None) [("BUILDDIR", "out")] "help" = Some cmds
    ∧ Forall (λ c, ∃ s, c = "echo " +:+ s) cmds
    ∧ make_docs Sim.toolchain (λ _, None) [("BUILDDIR", "out")] None
        (Sim.Disk ∅ 0)
      = run_commands Sim.toolchain "help" (strict cmds) (Sim.Disk ∅ 0)
    ∧ Forall (λ c, ∃ s, c = "echo " +:+ s)
        (log (make_docs Sim.toolchain (λ _, None) [("BUILDDIR", "out")] None
                (Sim.Disk ∅ 0))).
Proof.
  exact (make_default_is_help Sim.toolchain (λ _, None) [("BUILDDIR", "out")]
           (Sim.Disk ∅ 0) eq_refl eq_refl eq_refl).
Defined.

Lemma builder_is_leaf t bl d :
  (t, (bl, d)) ∈ builders →
  is_goal t = true ∧ is_phony doc_phony t = true
  ∧ ∀ r, rule_for t doc_rules = Some r → prereqs r = [].
Proof.
  intros Hin. unfold builders in Hin.
  rewrite ?elem_of_cons, ?elem_of_nil in Hin.
  repeat match type of Hin with _ ∨ _ => destruct Hin as [Hin|Hin] end;
    try contradiction; simplify_eq;
    (split; [reflexivity|split; [reflexivity|by_rule]]).
Qed.





Lemma definition_of_forallb (P : text → bool) vs n d :
  forallb (λ nd : string * text, P nd.2) vs = true →
  definition_of n vs = Some d → P d = true.
Proof.
  induction vs as [|[m d'] vs IH]; [done|]. cbn. intros H.
  apply andb_prop in H as [H1 H2].
  destruct (String.eqb m n); [by intros [= <-]|by apply IH].
Qed.

Lemma closed_definition vs n d :
  closed vs = true → definition_of n vs = Some d → refs_defined vs d = true.
Proof. apply (definition_of_forallb (refs_defined vs)). Qed.

Lemma expand_fuel_env env env' vs :
  env' "MAKE" = env "MAKE" → closed vs = true →
  ∀ fuel t, refs_defined vs t = true →
  expand_fuel env fuel vs t = expand_fuel env' fuel vs t.
Proof.
  intros HM Hc fuel. induction fuel as [|fuel IH]; intros t Ht; [done|].
  induction t as [|f t IHt]; [done|].
  cbn in Ht. apply andb_prop in Ht as [Hf Ht].
  specialize (IHt Ht). cbn [expand_fuel foldr] in *. rewrite IHt.
  destruct f as [s|name|fn args]; [done| |done].
  destruct (definition_of name vs) as [d|] eqn:Hd.
  - by rewrite (IH d (closed_definition vs name d Hc Hd)).
  - rewrite orb_false_r in Hf. apply String.eqb_eq in Hf. subst name.
    by rewrite HM.
Qed.

Lemma definition_of_app n vs1 vs2 :
  definition_of n (vs1 ++ vs2)
  = match definition_of n vs1 with
    | Some d => Some d
    | None => definition_of n vs2
    end.
Proof.
  induction vs1 as [|[m d] vs1 IH]; [done|]. cbn.
  by destruct (String.eqb m n).
Qed.

Lemma refs_defined_app vs1 vs2 t :
  refs_defined vs2 t = true → refs_defined (vs1 ++ vs2) t = true.
Proof.
  unfold refs_defined. rewrite !forallb_forall. intros H f Hf.
  specialize (H f Hf). destruct f as [|n|]; [done| |done].
  rewrite definition_of_app. destruct (definition_of n vs1);
    [by rewrite orb_true_r|exact H].
Qed.

Lemma overridden_closed ov : closed (overridden ov) = true.
Proof.
  unfold closed, overridden. rewrite forallb_app. apply andb_true_intro.
  split.
  - apply forallb_forall. intros [n d] Hin.
    apply in_map_iff in Hin as ([m s] & [= <- <-] & _). done.
  - apply forallb_forall. intros nd Hin. apply refs_defined_app.
    assert (Hd : closed doc_variables = true) by (by vm_compute).
    unfold closed in Hd. rewrite forallb_forall in Hd. by apply Hd.
Qed.

Lemma rules_defined r l :
  r ∈ doc_rules → l ∈ recipe r → refs_defined doc_variables l = true.
Proof.
  assert (H : forallb (λ r, forallb (refs_defined doc_variables) (recipe r))
                doc_rules = true) by (by vm_compute).
  rewrite forallb_forall in H. intros Hr Hl.
  apply list_elem_of_In in Hr, Hl. specialize (H r Hr).
  rewrite forallb_forall in H. by apply H.
Qed.

Lemma rule_for_elem t rs r : rule_for t rs = Some r → r ∈ rs.
Proof.
  induction rs as [|r' rs IH]; [done|]. cbn.
  destruct (String.eqb (target r') t).
  - intros [= <-]. apply list_elem_of_here.
  - intros H. apply list_elem_of_further. by apply IH.
Qed.

Lemma mapM_agree {A B} (f g : A → option B) (l : list A) :
  (∀ x, x ∈ l → f x = g x) → mapM f l = mapM g l.
Proof.
  induction l as [|x l IH]; intros H; [done|].
  cbn. rewrite (H x (list_elem_of_here _ _)).
  rewrite IH; [done|]. intros y Hy. apply H. by apply list_elem_of_further.
Qed.

(** Every variable the recipes and the definitions refer to is defined
    in the Makefile, but for [MAKE].  So the environment does not show
    in the commands: the recipe of a target, where the model gives it,
    is the same in every other environment that leaves make to itself
    and in which [MAKE] is the same, whatever is given on the command
    line. *)
Theorem commands_free_of_environment (env env' : string → option string)
    ov t cs :
  plain env' = true → env' "MAKE" = env "MAKE" →
  recipe_of env ov t = Some cs → recipe_of env' ov t = Some cs.
Proof.
  intros Hp HM Hc.
  destruct (recipe_of_rule _ _ _ _ Hc) as (vs & r & ls & Ht & Hr & Hm & ->).
  unfold table in Ht.
  destruct (plain env && forallb override_ok ov) eqn:E; [|discriminate].
  injection Ht as <-. apply andb_prop in E as [_ Ho].
  unfold recipe_of. rewrite (table_overridden env' ov Hp Ho).
  cbn [mbind option_bind]. rewrite Hr. cbn [mbind option_bind].
  rewrite (mapM_agree (expand env' (overridden ov))
             (expand env (overridden ov)) (recipe r)); [by rewrite Hm|].
  intros l Hl. unfold expand. symmetry.
  apply expand_fuel_env; [done|apply overridden_closed|].
  unfold overridden. apply refs_defined_app.
  apply (rules_defined r l); [by apply (rule_for_elem t)|done].
Qed.

Lemma commands_free_of_environment_witness :
  ∃ cs, recipe_of (λ _, None) [] "dirhtml" = Some cs
        ∧ recipe_of Lab.docs_env [] "dirhtml" = Some cs
        ∧ head cs = Some (false, "mkdir -p ./build/dirhtml").
Proof.
  eexists. split; [vm_compute; reflexivity|]. split; [|reflexivity].
  apply (commands_free_of_environment (λ _, None) Lab.docs_env []
           "dirhtml"); [reflexivity|reflexivity|vm_compute; reflexivity].
Defined.

End SphinxSpec.
